(** * MissionMonitor: the failsafe supervisor of the restraining bolt

    A shallow embedding of [MissionMonitor.cpp] (with the member
    declarations of [MissionMonitor.h]) and the properties of its event
    handlers and of its per-tick evaluator.

    The monitor is a single mutable object driven from one control loop:
    telemetry handlers update its members, [tick] evaluates them.  The
    embedding threads the object through a small state-and-output monad;
    the output is the list of calls made to the collaborators (audio
    player, servo relay, mode-change command), in program order.  The
    clock [getMissionTime()] is read from the environment: every handler
    that calls it receives the reading as its first argument. *)

From Stdlib Require Import ZArith List Bool Lia.
Import ListNotations.

Open Scope Z_scope.

(** ** Machine integers *)

(** [uint8_t], [uint16_t] and [uint32_t] values are integers of [Z]; an
    operation that can leave the range is followed by its wrap-around. *)
Definition u8 (x : Z) : Z := x mod 2 ^ 8.
Definition u16 (x : Z) : Z := x mod 2 ^ 16.
Definition u32 (x : Z) : Z := x mod 2 ^ 32.

(** The comparison [x == -1] of a [uint16_t] member [x] with the [int]
    literal [-1], after the usual arithmetic conversions.  Where [int] has
    16 bits it cannot hold every [uint16_t], both operands become
    [unsigned int] and [-1] becomes [65535].  Where [int] is wider, [x] is
    promoted to [int] with its value kept and is compared with [-1]. *)
Definition u16_eq_minus_one (int_bits : Z) (x : Z) : bool :=
  if int_bits <=? 16 then x =? u16 (-1) else x =? -1.

(** ** Constants of the MAVLink headers *)

(** [ROVER_MODE], [MAV_TYPE] and [GPS_FIX_TYPE] come from the generated
    MAVLink headers ([mavlink_2_ardupilot.h]); the values are those of
    the ardupilotmega and common dialects. *)
Definition ROVER_MODE_MANUAL : Z := 0.
Definition ROVER_MODE_ACRO : Z := 1.
Definition ROVER_MODE_STEERING : Z := 3.
Definition ROVER_MODE_HOLD : Z := 4.
Definition ROVER_MODE_LOITER : Z := 5.
Definition ROVER_MODE_AUTO : Z := 10.
Definition ROVER_MODE_RTL : Z := 11.
Definition ROVER_MODE_SMART_RTL : Z := 12.
Definition ROVER_MODE_GUIDED : Z := 15.
Definition ROVER_MODE_INITIALIZING : Z := 16.
Definition ROVER_MODE_ENUM_END : Z := 17.

Definition MAV_TYPE_GROUND_ROVER : Z := 10.

Definition GPS_FIX_TYPE_NO_GPS : Z := 0.
Definition GPS_FIX_TYPE_3D_FIX : Z := 3.

(** ** Collaborators *)

(** The sound identifiers handed to [AudioPlayer::play]. *)
Inductive Sound : Set :=
| MAVLINK_GOOD_SOUND
| MAVLINK_BAD_SOUND
| READY_SOUND
| EMERGENCY_STOP_SOUND
| GPS_SIGNAL_LOW_SOUND
| WRONG_DIRECTION_SOUND
| MANUAL_MODE_SOUND
| ACRO_MODE_SOUND
| STEERING_MODE_SOUND
| HOLD_MODE_SOUND
| LOITER_MODE_SOUND
| AUTO_MODE_SOUND
| RTL_MODE_SOUND
| SRTL_MODE_SOUND
| GUIDED_MODE_SOUND.

(** Modelled from the spec: the audio player, the servo relay and
    [sendModeChange] are not part of the source; each is a fire-and-forget
    call with no result, recorded here as an output of the monitor. *)
Inductive Effect : Set :=
| audioPlayer_play (sound : Sound)
| powerRelayOn
| powerRelayOff
| alarmRelayOn
| alarmRelayOff
| sendModeChange (roverMode : Z).

Definition Sound_eqb (a b : Sound) : bool :=
  match a, b with
  | MAVLINK_GOOD_SOUND, MAVLINK_GOOD_SOUND
  | MAVLINK_BAD_SOUND, MAVLINK_BAD_SOUND
  | READY_SOUND, READY_SOUND
  | EMERGENCY_STOP_SOUND, EMERGENCY_STOP_SOUND
  | GPS_SIGNAL_LOW_SOUND, GPS_SIGNAL_LOW_SOUND
  | WRONG_DIRECTION_SOUND, WRONG_DIRECTION_SOUND
  | MANUAL_MODE_SOUND, MANUAL_MODE_SOUND
  | ACRO_MODE_SOUND, ACRO_MODE_SOUND
  | STEERING_MODE_SOUND, STEERING_MODE_SOUND
  | HOLD_MODE_SOUND, HOLD_MODE_SOUND
  | LOITER_MODE_SOUND, LOITER_MODE_SOUND
  | AUTO_MODE_SOUND, AUTO_MODE_SOUND
  | RTL_MODE_SOUND, RTL_MODE_SOUND
  | SRTL_MODE_SOUND, SRTL_MODE_SOUND
  | GUIDED_MODE_SOUND, GUIDED_MODE_SOUND => true
  | _, _ => false
  end.

(** Whether an output is the request to play [sound]. *)
Definition plays (sound : Sound) (e : Effect) : bool :=
  match e with
  | audioPlayer_play s => Sound_eqb s sound
  | _ => false
  end.

(** How many times [sound] is requested in a list of outputs. *)
Definition count_plays (sound : Sound) (out : list Effect) : nat :=
  length (filter (plays sound) out).

(** ** Telemetry messages *)

(** The fields of [mavlink_heartbeat_t] the monitor reads. *)
Record mavlink_heartbeat_t : Set := mk_heartbeat {
  type : Z;          (* uint8_t *)
  custom_mode : Z;   (* uint32_t *)
  base_mode : Z      (* uint8_t *)
}.

(** ** The monitor object *)

(** Modelled from the spec: the header under [src/] declares only
    [_roverMode], [_lastDistanceToWaypoint] and [_currentWaypointSequenceId]
    (both [uint16_t]) and [_lastProgressMadeTimeMilliseconds] (an
    [unsigned long], 32 bits on the target).  The other members are the
    ones [MissionMonitor.cpp] reads or writes, typed as the spec describes
    them: the flags are booleans, the last heartbeat time and the timeout
    are 32-bit unsigned, the fix types fit a [uint8_t], and
    [_wrongDirectionCount] is a count of readings, not bounded here.  A
    rover mode is kept as the number of its enumerator: the casts between
    [uint32_t] and [ROVER_MODE] keep the value. *)
Record MissionMonitor : Set := mk_monitor {
  _secondsBeforeEmergencyStop : Z;
  _lowestGpsFixTpye : Z;
  _roverMode : Z;
  _mavModeFlag : Z;
  _lastHeartbeatTimeMilliseconds : Z;
  _firstHeartbeat : bool;
  _firstTick : bool;
  _lastDistanceToWaypoint : Z;
  _lastProgressMadeTimeMilliseconds : Z;
  _currentWaypointSequenceId : Z;
  _wrongDirection : bool;
  _wrongDirectionCount : Z;
  _gps1FixType : Z;
  _gps2FixType : Z;
  _isFailed : bool
}.

(** Assignments to single members. *)
Definition set_roverMode (v : Z) (m : MissionMonitor) : MissionMonitor :=
  mk_monitor (_secondsBeforeEmergencyStop m) (_lowestGpsFixTpye m) v
    (_mavModeFlag m) (_lastHeartbeatTimeMilliseconds m) (_firstHeartbeat m)
    (_firstTick m) (_lastDistanceToWaypoint m)
    (_lastProgressMadeTimeMilliseconds m) (_currentWaypointSequenceId m)
    (_wrongDirection m) (_wrongDirectionCount m) (_gps1FixType m)
    (_gps2FixType m) (_isFailed m).

Definition set_mavModeFlag (v : Z) (m : MissionMonitor) : MissionMonitor :=
  mk_monitor (_secondsBeforeEmergencyStop m) (_lowestGpsFixTpye m)
    (_roverMode m) v (_lastHeartbeatTimeMilliseconds m) (_firstHeartbeat m)
    (_firstTick m) (_lastDistanceToWaypoint m)
    (_lastProgressMadeTimeMilliseconds m) (_currentWaypointSequenceId m)
    (_wrongDirection m) (_wrongDirectionCount m) (_gps1FixType m)
    (_gps2FixType m) (_isFailed m).

Definition set_lastHeartbeatTimeMilliseconds (v : Z) (m : MissionMonitor)
  : MissionMonitor :=
  mk_monitor (_secondsBeforeEmergencyStop m) (_lowestGpsFixTpye m)
    (_roverMode m) (_mavModeFlag m) v (_firstHeartbeat m)
    (_firstTick m) (_lastDistanceToWaypoint m)
    (_lastProgressMadeTimeMilliseconds m) (_currentWaypointSequenceId m)
    (_wrongDirection m) (_wrongDirectionCount m) (_gps1FixType m)
    (_gps2FixType m) (_isFailed m).

Definition set_firstHeartbeat (v : bool) (m : MissionMonitor) : MissionMonitor :=
  mk_monitor (_secondsBeforeEmergencyStop m) (_lowestGpsFixTpye m)
    (_roverMode m) (_mavModeFlag m) (_lastHeartbeatTimeMilliseconds m) v
    (_firstTick m) (_lastDistanceToWaypoint m)
    (_lastProgressMadeTimeMilliseconds m) (_currentWaypointSequenceId m)
    (_wrongDirection m) (_wrongDirectionCount m) (_gps1FixType m)
    (_gps2FixType m) (_isFailed m).

Definition set_firstTick (v : bool) (m : MissionMonitor) : MissionMonitor :=
  mk_monitor (_secondsBeforeEmergencyStop m) (_lowestGpsFixTpye m)
    (_roverMode m) (_mavModeFlag m) (_lastHeartbeatTimeMilliseconds m)
    (_firstHeartbeat m) v (_lastDistanceToWaypoint m)
    (_lastProgressMadeTimeMilliseconds m) (_currentWaypointSequenceId m)
    (_wrongDirection m) (_wrongDirectionCount m) (_gps1FixType m)
    (_gps2FixType m) (_isFailed m).

Definition set_lastDistanceToWaypoint (v : Z) (m : MissionMonitor)
  : MissionMonitor :=
  mk_monitor (_secondsBeforeEmergencyStop m) (_lowestGpsFixTpye m)
    (_roverMode m) (_mavModeFlag m) (_lastHeartbeatTimeMilliseconds m)
    (_firstHeartbeat m) (_firstTick m) v
    (_lastProgressMadeTimeMilliseconds m) (_currentWaypointSequenceId m)
    (_wrongDirection m) (_wrongDirectionCount m) (_gps1FixType m)
    (_gps2FixType m) (_isFailed m).

Definition set_lastProgressMadeTimeMilliseconds (v : Z) (m : MissionMonitor)
  : MissionMonitor :=
  mk_monitor (_secondsBeforeEmergencyStop m) (_lowestGpsFixTpye m)
    (_roverMode m) (_mavModeFlag m) (_lastHeartbeatTimeMilliseconds m)
    (_firstHeartbeat m) (_firstTick m) (_lastDistanceToWaypoint m)
    v (_currentWaypointSequenceId m)
    (_wrongDirection m) (_wrongDirectionCount m) (_gps1FixType m)
    (_gps2FixType m) (_isFailed m).

Definition set_currentWaypointSequenceId (v : Z) (m : MissionMonitor)
  : MissionMonitor :=
  mk_monitor (_secondsBeforeEmergencyStop m) (_lowestGpsFixTpye m)
    (_roverMode m) (_mavModeFlag m) (_lastHeartbeatTimeMilliseconds m)
    (_firstHeartbeat m) (_firstTick m) (_lastDistanceToWaypoint m)
    (_lastProgressMadeTimeMilliseconds m) v
    (_wrongDirection m) (_wrongDirectionCount m) (_gps1FixType m)
    (_gps2FixType m) (_isFailed m).

Definition set_wrongDirection (v : bool) (m : MissionMonitor) : MissionMonitor :=
  mk_monitor (_secondsBeforeEmergencyStop m) (_lowestGpsFixTpye m)
    (_roverMode m) (_mavModeFlag m) (_lastHeartbeatTimeMilliseconds m)
    (_firstHeartbeat m) (_firstTick m) (_lastDistanceToWaypoint m)
    (_lastProgressMadeTimeMilliseconds m) (_currentWaypointSequenceId m)
    v (_wrongDirectionCount m) (_gps1FixType m)
    (_gps2FixType m) (_isFailed m).

Definition set_wrongDirectionCount (v : Z) (m : MissionMonitor) : MissionMonitor :=
  mk_monitor (_secondsBeforeEmergencyStop m) (_lowestGpsFixTpye m)
    (_roverMode m) (_mavModeFlag m) (_lastHeartbeatTimeMilliseconds m)
    (_firstHeartbeat m) (_firstTick m) (_lastDistanceToWaypoint m)
    (_lastProgressMadeTimeMilliseconds m) (_currentWaypointSequenceId m)
    (_wrongDirection m) v (_gps1FixType m)
    (_gps2FixType m) (_isFailed m).

Definition set_gps1FixType (v : Z) (m : MissionMonitor) : MissionMonitor :=
  mk_monitor (_secondsBeforeEmergencyStop m) (_lowestGpsFixTpye m)
    (_roverMode m) (_mavModeFlag m) (_lastHeartbeatTimeMilliseconds m)
    (_firstHeartbeat m) (_firstTick m) (_lastDistanceToWaypoint m)
    (_lastProgressMadeTimeMilliseconds m) (_currentWaypointSequenceId m)
    (_wrongDirection m) (_wrongDirectionCount m) v
    (_gps2FixType m) (_isFailed m).

Definition set_gps2FixType (v : Z) (m : MissionMonitor) : MissionMonitor :=
  mk_monitor (_secondsBeforeEmergencyStop m) (_lowestGpsFixTpye m)
    (_roverMode m) (_mavModeFlag m) (_lastHeartbeatTimeMilliseconds m)
    (_firstHeartbeat m) (_firstTick m) (_lastDistanceToWaypoint m)
    (_lastProgressMadeTimeMilliseconds m) (_currentWaypointSequenceId m)
    (_wrongDirection m) (_wrongDirectionCount m) (_gps1FixType m)
    v (_isFailed m).

Definition set_isFailed (v : bool) (m : MissionMonitor) : MissionMonitor :=
  mk_monitor (_secondsBeforeEmergencyStop m) (_lowestGpsFixTpye m)
    (_roverMode m) (_mavModeFlag m) (_lastHeartbeatTimeMilliseconds m)
    (_firstHeartbeat m) (_firstTick m) (_lastDistanceToWaypoint m)
    (_lastProgressMadeTimeMilliseconds m) (_currentWaypointSequenceId m)
    (_wrongDirection m) (_wrongDirectionCount m) (_gps1FixType m)
    (_gps2FixType m) v.

(** Modelled from the spec: the initial values of the members the header
    under [src/] does not declare (flags false, streak 0, fix types "no
    fix"); the last heartbeat time is unset in the spec and is left to the
    caller.  The rest is the constructor and the initialisers of the
    header: [_roverMode], [_lastDistanceToWaypoint = -1] (a [uint16_t], so
    65535), [_lastProgressMadeTimeMilliseconds = -1] (so 2^32 - 1) and
    [_currentWaypointSequenceId]. *)
Definition MissionMonitor_new (secondsBeforeEmergencyStop lowestGpsFixTpye : Z)
    (lastHeartbeat0 : Z) : MissionMonitor :=
  {| _secondsBeforeEmergencyStop := secondsBeforeEmergencyStop;
     _lowestGpsFixTpye := lowestGpsFixTpye;
     _roverMode := ROVER_MODE_INITIALIZING;
     _mavModeFlag := 0;
     _lastHeartbeatTimeMilliseconds := lastHeartbeat0;
     _firstHeartbeat := false;
     _firstTick := false;
     _lastDistanceToWaypoint := u16 (-1);
     _lastProgressMadeTimeMilliseconds := u32 (-1);
     _currentWaypointSequenceId := 0;
     _wrongDirection := false;
     _wrongDirectionCount := 0;
     _gps1FixType := GPS_FIX_TYPE_NO_GPS;
     _gps2FixType := GPS_FIX_TYPE_NO_GPS;
     _isFailed := false |}.

(** ** The monad of member functions *)

(** A member function takes the object and returns its result, the
    updated object and the collaborator calls it made, oldest first. *)
Definition M (A : Type) : Type := MissionMonitor -> A * MissionMonitor * list Effect.

Definition ret {A : Type} (a : A) : M A := fun m => (a, m, []).

Definition bind {A B : Type} (c : M A) (k : A -> M B) : M B :=
  fun m =>
    let '(a, m1, out1) := c m in
    let '(b, m2, out2) := k a m1 in
    (b, m2, out1 ++ out2).

Definition get : M MissionMonitor := fun m => (m, m, []).
Definition modify (f : MissionMonitor -> MissionMonitor) : M unit :=
  fun m => (tt, f m, []).
Definition emit (e : Effect) : M unit := fun m => (tt, m, [e]).
Definition skip : M unit := ret tt.

Declare Scope monitor_scope.
Delimit Scope monitor_scope with monitor.
Notation "x <- c ;; k" := (bind c (fun x => k))
  (at level 61, c at next level, right associativity) : monitor_scope.
Notation "c ;; k" := (bind c (fun _ => k))
  (at level 61, right associativity) : monitor_scope.
Open Scope monitor_scope.

(** The object and the outputs a member function leaves behind. *)
Definition state_after {A : Type} (c : M A) (m : MissionMonitor) : MissionMonitor :=
  snd (fst (c m)).
Definition effects {A : Type} (c : M A) (m : MissionMonitor) : list Effect :=
  snd (c m).

(** ** Member functions *)

(** [MissionMonitor::failMission]. *)
Definition failMission : M unit :=
  modify (set_isFailed true) ;;
  emit powerRelayOff ;;
  emit alarmRelayOn ;;
  emit (audioPlayer_play EMERGENCY_STOP_SOUND).

(** [MissionMonitor::start]. *)
Definition start : M unit :=
  modify (set_lastProgressMadeTimeMilliseconds 0) ;;
  modify (set_isFailed false) ;;
  modify (set_wrongDirection false) ;;
  modify (set_wrongDirectionCount 0) ;;
  emit powerRelayOn ;;
  emit alarmRelayOff.

(** The sound of [MissionMonitor::play] for a rover mode, if it has one:
    the [switch] has a case for each enumerator, two of them empty, and no
    default. *)
Definition mode_sound (roverMode : Z) : option Sound :=
  if roverMode =? ROVER_MODE_MANUAL then Some MANUAL_MODE_SOUND
  else if roverMode =? ROVER_MODE_ACRO then Some ACRO_MODE_SOUND
  else if roverMode =? ROVER_MODE_STEERING then Some STEERING_MODE_SOUND
  else if roverMode =? ROVER_MODE_HOLD then Some HOLD_MODE_SOUND
  else if roverMode =? ROVER_MODE_LOITER then Some LOITER_MODE_SOUND
  else if roverMode =? ROVER_MODE_AUTO then Some AUTO_MODE_SOUND
  else if roverMode =? ROVER_MODE_RTL then Some RTL_MODE_SOUND
  else if roverMode =? ROVER_MODE_SMART_RTL then Some SRTL_MODE_SOUND
  else if roverMode =? ROVER_MODE_GUIDED then Some GUIDED_MODE_SOUND
  else if roverMode =? ROVER_MODE_INITIALIZING then None
  else if roverMode =? ROVER_MODE_ENUM_END then None
  else None.

(** [MissionMonitor::play]. *)
Definition play (roverMode : Z) : M unit :=
  match mode_sound roverMode with
  | Some sound => emit (audioPlayer_play sound)
  | None => skip
  end.

(** [MissionMonitor::onHeatbeat]. *)
Definition onHeatbeat (missionTime : Z) (mavlink_heartbeat : mavlink_heartbeat_t)
  : M unit :=
  modify (set_lastHeartbeatTimeMilliseconds missionTime) ;;
  m <- get ;;
  (if type mavlink_heartbeat =? u8 MAV_TYPE_GROUND_ROVER then
     if negb (custom_mode mavlink_heartbeat =? _roverMode m) then
       let roverMode := custom_mode mavlink_heartbeat in
       let mavModeFlag := base_mode mavlink_heartbeat in
       play roverMode ;;
       modify (set_mavModeFlag mavModeFlag) ;;
       modify (set_roverMode roverMode) ;;
       start
     else skip
   else skip) ;;
  m <- get ;;
  if Bool.eqb (_firstHeartbeat m) false then
    modify (set_firstHeartbeat true) ;;
    emit (audioPlayer_play MAVLINK_GOOD_SOUND)
  else skip.

(** [MissionMonitor::onMissionItemReached]; the sequence number is only
    logged. *)
Definition onMissionItemReached (missionTime : Z) (seq : Z) : M unit :=
  modify (set_lastProgressMadeTimeMilliseconds missionTime).

Section Platform.

(** The width of [int] on the target, which decides how the distance is
    compared with [-1]. *)
Variable int_bits : Z.

(** [MissionMonitor::onNavControllerOutput], on the [wp_dist] field of the
    message. *)
Definition onNavControllerOutput (missionTime : Z) (wp_dist : Z) : M unit :=
  m <- get ;;
  progressMade <-
    (if u16_eq_minus_one int_bits (_lastDistanceToWaypoint m) then
       ret true
     else if _lastDistanceToWaypoint m =? wp_dist then
       if negb (_wrongDirection m) then ret true else ret false
     else if _lastDistanceToWaypoint m <? wp_dist then
       modify (set_wrongDirection true) ;;
       modify (set_wrongDirectionCount (_wrongDirectionCount m + 1)) ;;
       ret false
     else
       ret true) ;;
  modify (set_lastDistanceToWaypoint wp_dist) ;;
  if progressMade : bool then
    modify (set_lastProgressMadeTimeMilliseconds missionTime) ;;
    modify (set_wrongDirection false) ;;
    modify (set_wrongDirectionCount 0)
  else skip.

End Platform.

(** [MissionMonitor::onMissionCurrent]. *)
Definition onMissionCurrent (missionTime : Z) (seq : Z) : M unit :=
  m <- get ;;
  if negb (_currentWaypointSequenceId m =? seq) then
    modify (set_currentWaypointSequenceId seq) ;;
    modify (set_lastDistanceToWaypoint (u16 (-1))) ;;
    modify (set_lastProgressMadeTimeMilliseconds missionTime)
  else skip.

(** [MissionMonitor::onGPSRawInt] and [MissionMonitor::onGPS2Raw]. *)
Definition onGPSRawInt (fix_type : Z) : M unit :=
  modify (set_gps1FixType fix_type).

Definition onGPS2Raw (fix_type : Z) : M unit :=
  modify (set_gps2FixType fix_type).

(** The locals of [MissionMonitor::evaluateMission], as functions of the
    clock reading and of the object on entry. *)
Definition timeoutMilliseconds (m : MissionMonitor) : Z :=
  u32 (_secondsBeforeEmergencyStop m * 1000).

Definition timeDifference (missionTime : Z) (m : MissionMonitor) : Z :=
  u32 (missionTime - _lastProgressMadeTimeMilliseconds m).

Definition maxGPSFixType (m : MissionMonitor) : Z :=
  u8 (Z.max (_gps1FixType m) (_gps2FixType m)).

Definition isAutoMode (m : MissionMonitor) : bool :=
  _roverMode m =? ROVER_MODE_AUTO.

Definition isHoldMode (m : MissionMonitor) : bool :=
  _roverMode m =? ROVER_MODE_HOLD.

Definition mavlinkLost (missionTime : Z) (m : MissionMonitor) : bool :=
  _firstHeartbeat m
  && (timeoutMilliseconds m <=? u32 (missionTime - _lastHeartbeatTimeMilliseconds m)).

Definition gpsLost (m : MissionMonitor) : bool :=
  maxGPSFixType m <? _lowestGpsFixTpye m.

Definition noProgress (missionTime : Z) (m : MissionMonitor) : bool :=
  negb (_lastProgressMadeTimeMilliseconds m =? 0)
  && (timeoutMilliseconds m <=? timeDifference missionTime m).

(** [MissionMonitor::evaluateMission].  The conditions are computed once,
    on entry; [_isFailed] is tested once, before the first branch. *)
Definition evaluateMission (missionTime : Z) : M unit :=
  m <- get ;;
  if negb (_isFailed m) then
    (if mavlinkLost missionTime m then
       failMission ;;
       modify (set_firstHeartbeat false) ;;
       emit (audioPlayer_play MAVLINK_BAD_SOUND)
     else skip) ;;
    if isAutoMode m then
      (if gpsLost m then
         emit (sendModeChange ROVER_MODE_HOLD) ;;
         emit (audioPlayer_play GPS_SIGNAL_LOW_SOUND)
       else if noProgress missionTime m then
         failMission
       else skip) ;;
      m' <- get ;;
      if _wrongDirectionCount m' =? 2 then
        modify (set_wrongDirectionCount (_wrongDirectionCount m' + 1)) ;;
        emit (audioPlayer_play WRONG_DIRECTION_SOUND)
      else skip
    else if isHoldMode m && negb (gpsLost m) then
      emit (sendModeChange ROVER_MODE_AUTO)
    else skip
  else skip.

(** [MissionMonitor::tick]. *)
Definition tick (missionTime : Z) : M unit :=
  evaluateMission missionTime ;;
  m <- get ;;
  if negb (_firstTick m) then
    modify (set_firstTick true) ;;
    emit (audioPlayer_play READY_SOUND)
  else skip.

(** ** The control loop *)

(** What the control loop can deliver to the monitor: a decoded message
    with the clock reading at its delivery, or a tick. *)
Inductive Event : Set :=
| Heatbeat (missionTime : Z) (mavlink_heartbeat : mavlink_heartbeat_t)
| MissionItemReached (missionTime : Z) (seq : Z)
| NavControllerOutput (missionTime : Z) (wp_dist : Z)
| MissionCurrent (missionTime : Z) (seq : Z)
| GPSRawInt (fix_type : Z)
| GPS2Raw (fix_type : Z)
| Tick (missionTime : Z).

Definition dispatch (int_bits : Z) (ev : Event) : M unit :=
  match ev with
  | Heatbeat t hb => onHeatbeat t hb
  | MissionItemReached t seq => onMissionItemReached t seq
  | NavControllerOutput t d => onNavControllerOutput int_bits t d
  | MissionCurrent t seq => onMissionCurrent t seq
  | GPSRawInt f => onGPSRawInt f
  | GPS2Raw f => onGPS2Raw f
  | Tick t => tick t
  end.

(** Events are handled one after the other, in arrival order. *)
Fixpoint run (int_bits : Z) (evs : list Event) : M unit :=
  match evs with
  | [] => skip
  | ev :: rest => dispatch int_bits ev ;; run int_bits rest
  end.

(** ** States and predicates used in the properties *)

(** A monitor with a timeout of five seconds and a 3D fix as the lowest
    acceptable one, as constructed; after the first heartbeat, of a rover
    in AUTO mode, at time 0; and after the tick at 5000 ms that finds the
    link lost. *)
Definition fresh_monitor : MissionMonitor :=
  MissionMonitor_new 5 GPS_FIX_TYPE_3D_FIX 0.

Definition linked_monitor : MissionMonitor :=
  state_after
    (onHeatbeat 0 (mk_heartbeat MAV_TYPE_GROUND_ROVER ROVER_MODE_AUTO 0))
    fresh_monitor.

Definition failed_monitor : MissionMonitor :=
  state_after (tick 5000) linked_monitor.



(** Whether an output is the request to switch to [roverMode], and how
    many such requests a list of outputs holds. *)
Definition requests_mode (roverMode : Z) (e : Effect) : bool :=
  match e with
  | sendModeChange r => r =? roverMode
  | _ => false
  end.

Definition count_requests (roverMode : Z) (out : list Effect) : nat :=
  length (filter (requests_mode roverMode) out).

(** A rover that went to HOLD, got its fix back and then lost the link:
    the tick at 5000 ms sets the latch. *)
Definition held_failed_monitor : MissionMonitor :=
  state_after
    (run 32 [Heatbeat 0 (mk_heartbeat MAV_TYPE_GROUND_ROVER ROVER_MODE_HOLD 0);
             GPSRawInt GPS_FIX_TYPE_3D_FIX; Tick 5000])
    fresh_monitor.

(** What a reading that counts as progress leaves behind. *)
Definition progress_made (now : Z) (m' : MissionMonitor) : Prop :=
  _lastProgressMadeTimeMilliseconds m' = now
  /\ _wrongDirection m' = false
  /\ _wrongDirectionCount m' = 0.

(** A rover in AUTO mode with a 3D fix starts a leg, reports the distances
    50, 60 and 70 and then 80, with ticks in between and two ticks after
    the third reading. *)
Definition wrong_way_start : list Event :=
  [Heatbeat 0 (mk_heartbeat MAV_TYPE_GROUND_ROVER ROVER_MODE_AUTO 0);
   GPSRawInt GPS_FIX_TYPE_3D_FIX;
   MissionCurrent 10 1;
   NavControllerOutput 100 50; Tick 150;
   NavControllerOutput 200 60; Tick 250;
   NavControllerOutput 300 70].

Definition wrong_way_rest : list Event :=
  [Tick 350; Tick 450; NavControllerOutput 500 80; Tick 550].

(** The local [progressMade] of [onNavControllerOutput] once its four
    branches are through, as a function of the object on entry and of the
    reading. *)
Definition progressMade (int_bits : Z) (m : MissionMonitor) (wp_dist : Z) : bool :=
  if u16_eq_minus_one int_bits (_lastDistanceToWaypoint m) then true
  else if _lastDistanceToWaypoint m =? wp_dist then negb (_wrongDirection m)
  else if _lastDistanceToWaypoint m <? wp_dist then false
  else true.




(** 1 when no heartbeat is on record, else 0. *)
Definition awaiting_heartbeat (m : MissionMonitor) : nat :=
  if _firstHeartbeat m then 0%nat else 1%nat.

(** ** Classifying events and calls *)

(** The ticks among the events, and the telemetry messages that are no
    heartbeat. *)
Definition is_tick (ev : Event) : bool :=
  match ev with
  | Tick _ => true
  | _ => false
  end.

Definition is_telemetry (ev : Event) : bool :=
  match ev with
  | MissionItemReached _ _ => true
  | NavControllerOutput _ _ => true
  | MissionCurrent _ _ => true
  | GPSRawInt _ => true
  | GPS2Raw _ => true
  | _ => false
  end.

(** The calls to the servo relay and the mode requests among the outputs. *)
Definition is_relay_call (e : Effect) : bool :=
  match e with
  | powerRelayOn | powerRelayOff | alarmRelayOn | alarmRelayOff => true
  | _ => false
  end.

Definition is_mode_request (e : Effect) : bool :=
  match e with
  | sendModeChange _ => true
  | _ => false
  end.

(** The calls [onHeatbeat] can make: a sound, or arming the relay pair. *)
Definition heartbeat_call (e : Effect) : bool :=
  match e with
  | audioPlayer_play _ => true
  | powerRelayOn => true
  | alarmRelayOff => true
  | _ => false
  end.

(** The calls [tick] can make: one of its five sounds, tripping the relay
    pair, or a mode request. *)
Definition tick_call (e : Effect) : bool :=
  match e with
  | audioPlayer_play READY_SOUND => true
  | audioPlayer_play EMERGENCY_STOP_SOUND => true
  | audioPlayer_play MAVLINK_BAD_SOUND => true
  | audioPlayer_play GPS_SIGNAL_LOW_SOUND => true
  | audioPlayer_play WRONG_DIRECTION_SOUND => true
  | powerRelayOff => true
  | alarmRelayOn => true
  | sendModeChange _ => true
  | _ => false
  end.

(** Modelled from the spec: [ServoRelay] is not part of the source; it is
    two independent on/off actuators.  The state of the pair (power,
    alarm) after one call, and after a list of calls. *)
Definition relay_call (r : bool * bool) (e : Effect) : bool * bool :=
  match e with
  | powerRelayOn => (true, snd r)
  | powerRelayOff => (false, snd r)
  | alarmRelayOn => (fst r, true)
  | alarmRelayOff => (fst r, false)
  | _ => r
  end.

Definition relays_after (out : list Effect) (r : bool * bool) : bool * bool :=
  fold_left relay_call out r.

(** The relay pair as the latch wants it: power on and alarm off while the
    latch is clear, power off and alarm on while it is set. *)
Definition relays_of_latch (m : MissionMonitor) : bool * bool :=
  (negb (_isFailed m), _isFailed m).

(** The mode on record after an event, [mode] being on record before it:
    the custom mode of a heartbeat of a ground rover, else [mode]. *)
Definition reported_mode (mode : Z) (ev : Event) : Z :=
  match ev with
  | Heatbeat _ hb =>
      if type hb =? MAV_TYPE_GROUND_ROVER then custom_mode hb else mode
  | _ => mode
  end.

(** The streak is positive exactly while [_wrongDirection] is set. *)
Definition streak_matches_flag (m : MissionMonitor) : Prop :=
  0 <= _wrongDirectionCount m
  /\ (_wrongDirection m = true <-> 1 <= _wrongDirectionCount m).

(** Timed distance readings that each lie beyond the one before, [prev]
    being the distance before the first, and the events that deliver
    them. *)
Fixpoint moving_away (prev : Z) (readings : list (Z * Z)) : Prop :=
  match readings with
  | [] => True
  | (_, d) :: rest => prev < d < 2 ^ 16 /\ moving_away d rest
  end.

Definition reading_events (readings : list (Z * Z)) : list Event :=
  map (fun r => NavControllerOutput (fst r) (snd r)) readings.

(** A rover in AUTO mode reports the distances 50 and 60 on its first leg
    and is then sent to the next waypoint. *)
Definition second_leg_start : list Event :=
  [Heatbeat 0 (mk_heartbeat MAV_TYPE_GROUND_ROVER ROVER_MODE_AUTO 0);
   MissionCurrent 100 1;
   NavControllerOutput 200 50;
   NavControllerOutput 300 60;
   MissionCurrent 350 2].

(** A rover in AUTO mode with a 3D fix that reached a waypoint at 1 ms and
    was not heard of again. *)
Definition silent_stalled_monitor : MissionMonitor :=
  state_after
    (run 32 [Heatbeat 0 (mk_heartbeat MAV_TYPE_GROUND_ROVER ROVER_MODE_AUTO 0);
             GPSRawInt GPS_FIX_TYPE_3D_FIX;
             MissionItemReached 1 0])
    fresh_monitor.

(** * Properties *)

(** ** Reasoning about member functions *)

Ltac unfold_monad :=
  unfold state_after, effects, bind, ret, get, modify, emit, skip in *.

(** Breaks the monitor into its members, so that member reads and writes
    compute. *)
Ltac open_monitor m :=
  let secs := fresh "secs" in
  let lowest := fresh "lowest" in
  let mode := fresh "mode" in
  let flag := fresh "flag" in
  let hbt := fresh "hbt" in
  let fh := fresh "fh" in
  let ft := fresh "ft" in
  let dist := fresh "dist" in
  let prog := fresh "prog" in
  let wp := fresh "wp" in
  let wd := fresh "wd" in
  let wdc := fresh "wdc" in
  let g1 := fresh "g1" in
  let g2 := fresh "g2" in
  let failed := fresh "failed" in
  destruct m as [secs lowest mode flag hbt fh ft dist prog wp wd wdc g1 g2 failed].

Lemma state_after_seq (c : M unit) (k : M unit) (m : MissionMonitor) :
  state_after (c ;; k) m = state_after k (state_after c m).
Proof.
  unfold_monad. destruct (c m) as [[[] m1] out1]. cbn.
  destruct (k m1) as [[[] m2] out2]. reflexivity.
Qed.

Lemma effects_seq (c : M unit) (k : M unit) (m : MissionMonitor) :
  effects (c ;; k) m = effects c m ++ effects k (state_after c m).
Proof.
  unfold_monad. destruct (c m) as [[[] m1] out1]. cbn.
  destruct (k m1) as [[[] m2] out2]. reflexivity.
Qed.


Lemma count_plays_app (sound : Sound) (out1 out2 : list Effect) :
  count_plays sound (out1 ++ out2)
  = (count_plays sound out1 + count_plays sound out2)%nat.
Proof. unfold count_plays. now rewrite filter_app, length_app. Qed.

(** Only the comparison [int_bits <= 16] matters to the monitor. *)
Lemma u16_eq_minus_one_width (ib : Z) (x : Z) :
  u16_eq_minus_one ib x = u16_eq_minus_one (if ib <=? 16 then 16 else 32) x.
Proof. unfold u16_eq_minus_one. now destruct (ib <=? 16). Qed.

Lemma onNavControllerOutput_width (ib : Z) (now d : Z) (m : MissionMonitor) :
  onNavControllerOutput ib now d m
  = onNavControllerOutput (if ib <=? 16 then 16 else 32) now d m.
Proof.
  unfold onNavControllerOutput. unfold_monad.
  now rewrite u16_eq_minus_one_width.
Qed.

Lemma run_width (ib : Z) (evs : list Event) (m : MissionMonitor) :
  run ib evs m = run (if ib <=? 16 then 16 else 32) evs m.
Proof.
  revert m. induction evs as [|ev evs IH]; intros m.
  - reflexivity.
  - cbn [run]. unfold bind.
    assert (E : dispatch ib ev m = dispatch (if ib <=? 16 then 16 else 32) ev m).
    { destruct ev; try reflexivity. apply onNavControllerOutput_width. }
    rewrite E. clear E.
    destruct (dispatch (if ib <=? 16 then 16 else 32) ev m) as [[[] m1] out1].
    now rewrite IH.
Qed.

(** Splits on the conditions of a member function, one at a time, taking
    a condition only once the conditions inside it are decided. *)
Ltac split_branches :=
  repeat (cbn;
          match goal with
          | |- context [match mode_sound ?r with _ => _ end] =>
              destruct (mode_sound r) eqn:?
          | |- context [if Bool.eqb ?c false then _ else _] =>
              is_var c; destruct c eqn:?
          | |- context [if negb ?c then _ else _] =>
              lazymatch c with
              | context [if _ then _ else _] => fail
              | context [mode_sound] => fail
              | _ => destruct c eqn:?
              end
          | |- context [if ?c then _ else _] =>
              lazymatch c with
              | context [if _ then _ else _] => fail
              | context [mode_sound] => fail
              | _ => destruct c eqn:?
              end
          end);
  cbn.

(** ** Waypoint announcements *)

(** C10: an [onMissionCurrent] whose sequence id is the stored
    [_currentWaypointSequenceId] leaves every member of the monitor as it
    was (in particular the waypoint id, the last distance and the last
    progress time) and calls no collaborator. *)
Theorem onMissionCurrent_same_seq_noop (now seq : Z) (m : MissionMonitor) :
  seq = _currentWaypointSequenceId m ->
  onMissionCurrent now seq m = (tt, m, []).
Proof.
  intros ->. unfold onMissionCurrent. unfold_monad.
  now rewrite Z.eqb_refl.
Qed.

Lemma onMissionCurrent_same_seq_noop_witness :
  0 = _currentWaypointSequenceId linked_monitor
  /\ onMissionCurrent 1234 0 linked_monitor = (tt, linked_monitor, []).
Proof.
  split; [reflexivity|].
  apply (onMissionCurrent_same_seq_noop 1234 0 linked_monitor). reflexivity.
Defined.

(** ** Heartbeats *)

(** C9: a heartbeat whose vehicle type is not [MAV_TYPE_GROUND_ROVER]
    records the heartbeat time and plays the first-heartbeat sound when it
    is due, and does nothing else: whatever its custom mode, the stored
    mode is kept, [start] is not run, and [_isFailed] keeps its value. *)
Theorem onHeatbeat_other_vehicle (now : Z) (hb : mavlink_heartbeat_t)
    (m : MissionMonitor) :
  type hb <> MAV_TYPE_GROUND_ROVER ->
  state_after (onHeatbeat now hb) m
  = set_firstHeartbeat true (set_lastHeartbeatTimeMilliseconds now m)
  /\ effects (onHeatbeat now hb) m
     = (if _firstHeartbeat m then [] else [audioPlayer_play MAVLINK_GOOD_SOUND])
  /\ _lastHeartbeatTimeMilliseconds (state_after (onHeatbeat now hb) m) = now
  /\ _roverMode (state_after (onHeatbeat now hb) m) = _roverMode m
  /\ _isFailed (state_after (onHeatbeat now hb) m) = _isFailed m
  /\ _lastProgressMadeTimeMilliseconds (state_after (onHeatbeat now hb) m)
     = _lastProgressMadeTimeMilliseconds m.
Proof.
  intros Hty.
  assert (E : state_after (onHeatbeat now hb) m
              = set_firstHeartbeat true (set_lastHeartbeatTimeMilliseconds now m)
              /\ effects (onHeatbeat now hb) m
                 = (if _firstHeartbeat m then []
                    else [audioPlayer_play MAVLINK_GOOD_SOUND])).
  { unfold onHeatbeat. unfold_monad.
    change (u8 MAV_TYPE_GROUND_ROVER) with MAV_TYPE_GROUND_ROVER.
    destruct (Z.eqb_spec (type hb) MAV_TYPE_GROUND_ROVER) as [Heq|_];
      [contradiction|].
    open_monitor m. cbn. destruct fh; cbn; split; reflexivity. }
  destruct E as [Est Eout]. rewrite Est.
  repeat split; try reflexivity. exact Eout.
Qed.

Lemma onHeatbeat_other_vehicle_witness :
  _isFailed (state_after (onHeatbeat 77 (mk_heartbeat 2 ROVER_MODE_HOLD 0))
               failed_monitor) = true.
Proof.
  destruct (onHeatbeat_other_vehicle 77 (mk_heartbeat 2 ROVER_MODE_HOLD 0)
              failed_monitor) as (_ & _ & _ & _ & H & _).
  - discriminate.
  - rewrite H. reflexivity.
Defined.

(** C2, as the code has it: the mode comparison sits under the test of
    the vehicle type.  A heartbeat of type [MAV_TYPE_GROUND_ROVER] whose
    custom mode differs from the stored mode runs [start] whatever
    [_isFailed] was: afterwards [_isFailed] is false, the last progress
    time is 0, [_wrongDirection] is false and the streak is 0; the stored
    mode and mode flags are those of the heartbeat.  The calls are, in
    order: the sound of the new mode when [play] has one (none for
    [ROVER_MODE_INITIALIZING], [ROVER_MODE_ENUM_END] or a number without
    a case), power relay on, alarm relay off, and the first-heartbeat
    sound when it is due. *)
Theorem onHeatbeat_mode_change_restarts (now : Z) (hb : mavlink_heartbeat_t)
    (m : MissionMonitor) :
  type hb = MAV_TYPE_GROUND_ROVER ->
  custom_mode hb <> _roverMode m ->
  _isFailed (state_after (onHeatbeat now hb) m) = false
  /\ _lastProgressMadeTimeMilliseconds (state_after (onHeatbeat now hb) m) = 0
  /\ _wrongDirection (state_after (onHeatbeat now hb) m) = false
  /\ _wrongDirectionCount (state_after (onHeatbeat now hb) m) = 0
  /\ _roverMode (state_after (onHeatbeat now hb) m) = custom_mode hb
  /\ _mavModeFlag (state_after (onHeatbeat now hb) m) = base_mode hb
  /\ _lastHeartbeatTimeMilliseconds (state_after (onHeatbeat now hb) m) = now
  /\ effects (onHeatbeat now hb) m
     = match mode_sound (custom_mode hb) with
       | Some sound => [audioPlayer_play sound]
       | None => []
       end
       ++ [powerRelayOn; alarmRelayOff]
       ++ (if _firstHeartbeat m then [] else [audioPlayer_play MAVLINK_GOOD_SOUND])
  /\ mode_sound ROVER_MODE_INITIALIZING = None
  /\ mode_sound ROVER_MODE_ENUM_END = None
  /\ map mode_sound
       [ROVER_MODE_MANUAL; ROVER_MODE_ACRO; ROVER_MODE_STEERING;
        ROVER_MODE_HOLD; ROVER_MODE_LOITER; ROVER_MODE_AUTO; ROVER_MODE_RTL;
        ROVER_MODE_SMART_RTL; ROVER_MODE_GUIDED]
     = map Some
         [MANUAL_MODE_SOUND; ACRO_MODE_SOUND; STEERING_MODE_SOUND;
          HOLD_MODE_SOUND; LOITER_MODE_SOUND; AUTO_MODE_SOUND; RTL_MODE_SOUND;
          SRTL_MODE_SOUND; GUIDED_MODE_SOUND].
Proof.
  intros Hty Hmode.
  unfold onHeatbeat, start, play. unfold_monad.
  change (u8 MAV_TYPE_GROUND_ROVER) with MAV_TYPE_GROUND_ROVER.
  rewrite Hty, Z.eqb_refl.
  open_monitor m. cbn in Hmode |- *.
  destruct (Z.eqb_spec (custom_mode hb) mode) as [Heq|_]; [contradiction|].
  cbn. destruct (mode_sound (custom_mode hb)); destruct fh; cbn;
    repeat split; reflexivity.
Qed.

Lemma onHeatbeat_mode_change_restarts_witness :
  _isFailed (state_after
               (onHeatbeat 77 (mk_heartbeat MAV_TYPE_GROUND_ROVER ROVER_MODE_HOLD 0))
               failed_monitor) = false
  /\ effects (onHeatbeat 77 (mk_heartbeat MAV_TYPE_GROUND_ROVER ROVER_MODE_HOLD 0))
       failed_monitor
     = [audioPlayer_play HOLD_MODE_SOUND; powerRelayOn; alarmRelayOff;
        audioPlayer_play MAVLINK_GOOD_SOUND].
Proof.
  destruct (onHeatbeat_mode_change_restarts 77
              (mk_heartbeat MAV_TYPE_GROUND_ROVER ROVER_MODE_HOLD 0)
              failed_monitor) as (H1 & _ & _ & _ & _ & _ & _ & H2 & _).
  - reflexivity.
  - discriminate.
  - split; [exact H1 | exact H2].
Defined.

(** C2 as it is worded, for every heartbeat, fails: a heartbeat of another
    vehicle type that reports a different custom mode leaves the latch set
    and the stored mode as it was. *)
Lemma onHeatbeat_mode_change_any_vehicle_fails :
  ~ (forall (now : Z) (hb : mavlink_heartbeat_t) (m : MissionMonitor),
        custom_mode hb <> _roverMode m ->
        _isFailed (state_after (onHeatbeat now hb) m) = false
        /\ _roverMode (state_after (onHeatbeat now hb) m) = custom_mode hb).
Proof.
  intros H.
  destruct (H 77 (mk_heartbeat 2 ROVER_MODE_HOLD 0) failed_monitor) as [Hf _].
  - discriminate.
  - discriminate Hf.
Qed.

(** ** The tick *)

(** C5: when a heartbeat has been seen, the latch is not set and the last
    heartbeat is at least the timeout old (in 32-bit unsigned arithmetic,
    as the code computes it), the tick starts with the calls of
    [failMission] (power relay off, alarm relay on, emergency-stop sound)
    followed by the link-lost sound, and leaves [_isFailed] set and
    [_firstHeartbeat] cleared.  Nothing is assumed about the rover mode. *)
Theorem tick_mavlink_lost_fails_mission (now : Z) (m : MissionMonitor) :
  _firstHeartbeat m = true ->
  _isFailed m = false ->
  timeoutMilliseconds m <= u32 (now - _lastHeartbeatTimeMilliseconds m) ->
  exists rest,
    effects (tick now) m
    = [powerRelayOff; alarmRelayOn; audioPlayer_play EMERGENCY_STOP_SOUND;
       audioPlayer_play MAVLINK_BAD_SOUND] ++ rest
    /\ _isFailed (state_after (tick now) m) = true
    /\ _firstHeartbeat (state_after (tick now) m) = false.
Proof.
  intros Hfh Hf Hto.
  assert (Hl : mavlinkLost now m = true).
  { unfold mavlinkLost. rewrite Hfh. cbn. now apply Z.leb_le. }
  unfold tick, evaluateMission, failMission. unfold_monad.
  rewrite Hf, Hl. split_branches; eexists; repeat split; reflexivity.
Qed.

Lemma tick_mavlink_lost_fails_mission_witness :
  exists rest,
    effects (tick 5000) linked_monitor
    = [powerRelayOff; alarmRelayOn; audioPlayer_play EMERGENCY_STOP_SOUND;
       audioPlayer_play MAVLINK_BAD_SOUND] ++ rest
    /\ _isFailed (state_after (tick 5000) linked_monitor) = true
    /\ _firstHeartbeat (state_after (tick 5000) linked_monitor) = false.
Proof.
  apply (tick_mavlink_lost_fails_mission 5000 linked_monitor).
  - reflexivity.
  - reflexivity.
  - vm_compute. intros H. discriminate H.
Defined.

(** The evaluator behind a set latch: nothing is called, nothing changes. *)
Lemma evaluateMission_failed (now : Z) (m : MissionMonitor) :
  _isFailed m = true -> evaluateMission now m = (tt, m, []).
Proof.
  intros Hf. unfold evaluateMission. unfold_monad. now rewrite Hf.
Qed.


Lemma tick_sets_firstTick (now : Z) (m : MissionMonitor) :
  _firstTick (state_after (tick now) m) = true.
Proof.
  unfold tick, evaluateMission, failMission. unfold_monad.
  split_branches; try reflexivity; assumption.
Qed.









Lemma count_requests_app (roverMode : Z) (out1 out2 : list Effect) :
  count_requests roverMode (out1 ++ out2)
  = (count_requests roverMode out1 + count_requests roverMode out2)%nat.
Proof. unfold count_requests. now rewrite filter_app, length_app. Qed.

Ltac unfold_conditions :=
  unfold isAutoMode, isHoldMode, gpsLost, mavlinkLost, noProgress,
    maxGPSFixType, timeDifference, timeoutMilliseconds in *.

(** One tick in AUTO mode without an acceptable fix, the link being up:
    one HOLD request, one GPS sound, and the conditions stand as before. *)
Lemma tick_gps_lost_step (now : Z) (m : MissionMonitor) :
  _isFailed m = false -> isAutoMode m = true -> gpsLost m = true ->
  mavlinkLost now m = false ->
  _isFailed (state_after (tick now) m) = false
  /\ isAutoMode (state_after (tick now) m) = true
  /\ gpsLost (state_after (tick now) m) = true
  /\ (forall t, mavlinkLost t (state_after (tick now) m) = mavlinkLost t m)
  /\ count_requests ROVER_MODE_HOLD (effects (tick now) m) = 1%nat
  /\ count_plays GPS_SIGNAL_LOW_SOUND (effects (tick now) m) = 1%nat.
Proof.
  intros Hf Hauto Hgps Hlink.
  unfold tick, evaluateMission. unfold_monad.
  rewrite Hf, Hlink, Hauto, Hgps.
  split_branches; unfold_conditions; cbn; repeat split; assumption.
Qed.

(** One tick in HOLD mode with an acceptable fix, the link being up: one
    AUTO request, and the conditions stand as before. *)
Lemma tick_hold_recovered_step (now : Z) (m : MissionMonitor) :
  _isFailed m = false -> isHoldMode m = true -> gpsLost m = false ->
  mavlinkLost now m = false ->
  _isFailed (state_after (tick now) m) = false
  /\ isHoldMode (state_after (tick now) m) = true
  /\ gpsLost (state_after (tick now) m) = false
  /\ (forall t, mavlinkLost t (state_after (tick now) m) = mavlinkLost t m)
  /\ count_requests ROVER_MODE_AUTO (effects (tick now) m) = 1%nat.
Proof.
  intros Hf Hhold Hgps Hlink.
  assert (Hauto : isAutoMode m = false).
  { unfold isAutoMode, isHoldMode in *. apply Z.eqb_eq in Hhold.
    rewrite Hhold. reflexivity. }
  unfold tick, evaluateMission. unfold_monad.
  rewrite Hf, Hlink, Hauto, Hhold, Hgps.
  split_branches; unfold_conditions; cbn; repeat split; assumption.
Qed.

Lemma ticks_gps_lost (ib : Z) (ts : list Z) (m : MissionMonitor) :
  _isFailed m = false -> isAutoMode m = true -> gpsLost m = true ->
  (forall t, In t ts -> mavlinkLost t m = false) ->
  count_requests ROVER_MODE_HOLD (effects (run ib (map Tick ts)) m) = length ts
  /\ count_plays GPS_SIGNAL_LOW_SOUND (effects (run ib (map Tick ts)) m)
     = length ts.
Proof.
  revert m. induction ts as [|t ts IH]; intros m Hf Hauto Hgps Hlink.
  - split; reflexivity.
  - cbn [map run dispatch]. rewrite effects_seq.
    destruct (tick_gps_lost_step t m Hf Hauto Hgps (Hlink t (or_introl eq_refl)))
      as (Hf' & Hauto' & Hgps' & Hlink' & Hreq & Hplay).
    destruct (IH (state_after (tick t) m) Hf' Hauto' Hgps') as [IHreq IHplay].
    { intros t' Ht'. rewrite Hlink'. apply Hlink. now right. }
    rewrite count_requests_app, count_plays_app, Hreq, Hplay, IHreq, IHplay.
    split; reflexivity.
Qed.

Lemma ticks_hold_recovered (ib : Z) (ts : list Z) (m : MissionMonitor) :
  _isFailed m = false -> isHoldMode m = true -> gpsLost m = false ->
  (forall t, In t ts -> mavlinkLost t m = false) ->
  count_requests ROVER_MODE_AUTO (effects (run ib (map Tick ts)) m) = length ts.
Proof.
  revert m. induction ts as [|t ts IH]; intros m Hf Hhold Hgps Hlink.
  - reflexivity.
  - cbn [map run dispatch]. rewrite effects_seq.
    destruct (tick_hold_recovered_step t m Hf Hhold Hgps
                (Hlink t (or_introl eq_refl)))
      as (Hf' & Hhold' & Hgps' & Hlink' & Hreq).
    rewrite count_requests_app, Hreq, (IH (state_after (tick t) m)); auto.
    intros t' Ht'. rewrite Hlink'. apply Hlink. now right.
Qed.

(** C6, as the code has it: both mode requests sit behind the test of
    [_isFailed].  With the latch clear on entry, a tick in AUTO mode whose
    best fix is below the threshold requests HOLD and then plays the GPS
    sound, and a tick in HOLD mode whose best fix is acceptable requests
    AUTO, whatever else the tick does.  Both are level-triggered: over any
    number of consecutive ticks during which the link stays up, each tick
    makes the request (and in AUTO plays the sound) once more.  With the
    latch set the tick requests no mode. *)
Theorem mode_requests_level_triggered :
  (forall (now : Z) (m : MissionMonitor),
      _isFailed m = false -> isAutoMode m = true -> gpsLost m = true ->
      exists pre post,
        effects (tick now) m
        = pre ++ [sendModeChange ROVER_MODE_HOLD;
                  audioPlayer_play GPS_SIGNAL_LOW_SOUND] ++ post)
  /\ (forall (now : Z) (m : MissionMonitor),
         _isFailed m = false -> isHoldMode m = true -> gpsLost m = false ->
         exists pre post,
           effects (tick now) m = pre ++ [sendModeChange ROVER_MODE_AUTO] ++ post)
  /\ (forall (ib : Z) (ts : list Z) (m : MissionMonitor),
         _isFailed m = false -> isAutoMode m = true -> gpsLost m = true ->
         (forall t, In t ts -> mavlinkLost t m = false) ->
         count_requests ROVER_MODE_HOLD (effects (run ib (map Tick ts)) m)
         = length ts
         /\ count_plays GPS_SIGNAL_LOW_SOUND (effects (run ib (map Tick ts)) m)
            = length ts)
  /\ (forall (ib : Z) (ts : list Z) (m : MissionMonitor),
         _isFailed m = false -> isHoldMode m = true -> gpsLost m = false ->
         (forall t, In t ts -> mavlinkLost t m = false) ->
         count_requests ROVER_MODE_AUTO (effects (run ib (map Tick ts)) m)
         = length ts)
  /\ (forall (now : Z) (m : MissionMonitor) (roverMode : Z),
         _isFailed m = true ->
         ~ In (sendModeChange roverMode) (effects (tick now) m)).
Proof.
  split; [|split; [|split; [|split]]].
  - intros now m Hf Hauto Hgps.
    unfold tick, evaluateMission, failMission. unfold_monad.
    rewrite Hf, Hauto, Hgps.
    destruct (mavlinkLost now m); split_branches.
    all: first
      [ exists [powerRelayOff; alarmRelayOn;
                audioPlayer_play EMERGENCY_STOP_SOUND;
                audioPlayer_play MAVLINK_BAD_SOUND];
        eexists; reflexivity
      | exists []; eexists; reflexivity ].
  - intros now m Hf Hhold Hgps.
    assert (Hauto : isAutoMode m = false).
    { unfold isAutoMode, isHoldMode in *. apply Z.eqb_eq in Hhold.
      rewrite Hhold. reflexivity. }
    unfold tick, evaluateMission, failMission. unfold_monad.
    rewrite Hf, Hauto, Hhold, Hgps.
    destruct (mavlinkLost now m); split_branches.
    all: first
      [ exists [powerRelayOff; alarmRelayOn;
                audioPlayer_play EMERGENCY_STOP_SOUND;
                audioPlayer_play MAVLINK_BAD_SOUND];
        eexists; reflexivity
      | exists []; eexists; reflexivity ].
  - exact ticks_gps_lost.
  - exact ticks_hold_recovered.
  - intros now m roverMode Hf.
    unfold tick. unfold_monad.
    rewrite (evaluateMission_failed now m Hf).
    split_branches; intros H;
      repeat (destruct H as [H|H]; [discriminate H|]); exact H.
Qed.

Lemma mode_requests_level_triggered_witness :
  count_requests ROVER_MODE_HOLD
    (effects (run 32 (map Tick [100; 200; 300])) linked_monitor) = 3%nat
  /\ count_plays GPS_SIGNAL_LOW_SOUND
       (effects (run 32 (map Tick [100; 200; 300])) linked_monitor) = 3%nat.
Proof.
  destruct mode_requests_level_triggered as (_ & _ & H & _).
  apply (H 32 [100; 200; 300] linked_monitor).
  - vm_compute. reflexivity.
  - vm_compute. reflexivity.
  - vm_compute. reflexivity.
  - intros t Ht. cbn in Ht.
    repeat (destruct Ht as [Ht|Ht]; [subst t; vm_compute; reflexivity|]).
    destruct Ht.
Defined.

(** C6 as it is worded, with the AUTO request independent of the latch,
    fails: in HOLD mode with an acceptable fix and the latch set, the tick
    requests nothing. *)
Lemma hold_recovery_behind_latch :
  ~ (forall (now : Z) (m : MissionMonitor),
        isHoldMode m = true -> gpsLost m = false ->
        In (sendModeChange ROVER_MODE_AUTO) (effects (tick now) m)).
Proof.
  intros H.
  assert (Hin := H 6000 held_failed_monitor eq_refl eq_refl).
  vm_compute in Hin. exact Hin.
Qed.

(** ** Distance readings *)

(** The four cases of [onNavControllerOutput]. *)
Lemma onNavControllerOutput_cases (ib now d : Z) (m : MissionMonitor) :
  0 <= _lastDistanceToWaypoint m < 2 ^ 16 ->
  0 <= d < 2 ^ 16 ->
  _lastDistanceToWaypoint (state_after (onNavControllerOutput ib now d) m) = d
  /\ effects (onNavControllerOutput ib now d) m = []
  /\ (u16_eq_minus_one ib (_lastDistanceToWaypoint m) = true ->
      progress_made now (state_after (onNavControllerOutput ib now d) m))
  /\ (_lastDistanceToWaypoint m = u16 (-1) ->
      d <> _lastDistanceToWaypoint m \/ _wrongDirection m = false ->
      progress_made now (state_after (onNavControllerOutput ib now d) m))
  /\ (d < _lastDistanceToWaypoint m ->
      progress_made now (state_after (onNavControllerOutput ib now d) m))
  /\ (d = _lastDistanceToWaypoint m -> _wrongDirection m = false ->
      progress_made now (state_after (onNavControllerOutput ib now d) m))
  /\ (d = _lastDistanceToWaypoint m -> _wrongDirection m = true ->
      u16_eq_minus_one ib (_lastDistanceToWaypoint m) = false ->
      _lastProgressMadeTimeMilliseconds
        (state_after (onNavControllerOutput ib now d) m)
      = _lastProgressMadeTimeMilliseconds m
      /\ _wrongDirection (state_after (onNavControllerOutput ib now d) m) = true
      /\ _wrongDirectionCount (state_after (onNavControllerOutput ib now d) m)
         = _wrongDirectionCount m)
  /\ (_lastDistanceToWaypoint m < d ->
      _lastProgressMadeTimeMilliseconds
        (state_after (onNavControllerOutput ib now d) m)
      = _lastProgressMadeTimeMilliseconds m
      /\ _wrongDirection (state_after (onNavControllerOutput ib now d) m) = true
      /\ _wrongDirectionCount (state_after (onNavControllerOutput ib now d) m)
         = _wrongDirectionCount m + 1).
Proof.
  intros Hprev Hd.
  unfold onNavControllerOutput, u16_eq_minus_one, progress_made. unfold_monad.
  open_monitor m. cbn in Hprev |- *.
  change (u16 (-1)) with 65535.
  destruct (ib <=? 16);
    destruct (Z.eqb_spec dist 65535); try lia;
    destruct (Z.eqb_spec dist (-1)); try lia;
    destruct (Z.eqb_spec dist d); destruct (Z.ltb_spec dist d); try lia;
    destruct wd; cbn;
    repeat split; intros; try reflexivity; try discriminate; try lia;
    try (exfalso; intuition (congruence || lia)).
Qed.

(** A reading that makes progress, with what the next reading needs. *)
Lemma progress_step (ib now d : Z) (m : MissionMonitor) :
  0 <= _lastDistanceToWaypoint m < 2 ^ 16 ->
  0 <= d < 2 ^ 16 ->
  _wrongDirection m = false ->
  d <= _lastDistanceToWaypoint m ->
  progress_made now (state_after (onNavControllerOutput ib now d) m)
  /\ _lastDistanceToWaypoint (state_after (onNavControllerOutput ib now d) m) = d
  /\ _wrongDirection (state_after (onNavControllerOutput ib now d) m) = false.
Proof.
  intros Hprev Hd Hwd Hle.
  destruct (onNavControllerOutput_cases ib now d m Hprev Hd)
    as (Hdist & _ & _ & _ & Hlt & Heq & _).
  assert (Hp : progress_made now (state_after (onNavControllerOutput ib now d) m)).
  { destruct (Z.eq_dec d (_lastDistanceToWaypoint m)) as [E|E].
    - apply Heq; assumption.
    - apply Hlt. lia. }
  split; [exact Hp|]. split; [exact Hdist|]. apply Hp.
Qed.

(** The readings 65535 (the unknown value itself), 100, 100 and 90 after
    an unknown distance, and the readings 100, 100 and 90 alone. *)
Lemma readings_100_100_90 (ib t0 t1 t2 t3 : Z) (m : MissionMonitor) :
  _lastDistanceToWaypoint m = u16 (-1) ->
  _wrongDirection m = false ->
  let m0 := state_after (onNavControllerOutput ib t0 (u16 (-1))) m in
  let m1 := state_after (onNavControllerOutput ib t1 100) m0 in
  let m2 := state_after (onNavControllerOutput ib t2 100) m1 in
  let m3 := state_after (onNavControllerOutput ib t3 90) m2 in
  let n1 := state_after (onNavControllerOutput ib t1 100) m in
  let n2 := state_after (onNavControllerOutput ib t2 100) n1 in
  let n3 := state_after (onNavControllerOutput ib t3 90) n2 in
  (progress_made t0 m0 /\ progress_made t1 m1 /\ progress_made t2 m2
   /\ progress_made t3 m3)
  /\ (progress_made t1 n1 /\ progress_made t2 n2 /\ progress_made t3 n3).
Proof.
  intros Hprev Hwd m0 m1 m2 m3 n1 n2 n3.
  change (u16 (-1)) with 65535 in *.
  destruct (progress_step ib t0 65535 m) as (P0 & D0 & W0); try lia; auto.
  fold m0 in P0, D0, W0.
  destruct (progress_step ib t1 100 m0) as (P1 & D1 & W1); try lia; auto.
  fold m1 in P1, D1, W1.
  destruct (progress_step ib t2 100 m1) as (P2 & D2 & W2); try lia; auto.
  fold m2 in P2, D2, W2.
  destruct (progress_step ib t3 90 m2) as (P3 & D3 & W3); try lia; auto.
  destruct (progress_step ib t1 100 m) as (Q1 & E1 & V1); try lia; auto.
  fold n1 in Q1, E1, V1.
  destruct (progress_step ib t2 100 n1) as (Q2 & E2 & V2); try lia; auto.
  fold n2 in Q2, E2, V2.
  destruct (progress_step ib t3 90 n2) as (Q3 & E3 & V3); try lia; auto 10.
Qed.

(** The classification of a distance reading [d] against the previous
    distance [prev], both [uint16_t].  The new distance is always stored
    and no collaborator is called.  Progress (last progress time := now,
    [_wrongDirection] := false, streak := 0) is made when the test
    [prev == -1] of the code succeeds, when [prev] is the unknown value
    65535 (unless the reading is 65535 too and [_wrongDirection] is set:
    there the two rules of the classification overlap), when [d < prev],
    and when [d = prev] with [_wrongDirection] clear.  With [d = prev],
    [_wrongDirection] set and the test failing, nothing but the distance
    changes.  With [prev < d], [_wrongDirection] is set, the streak grows
    by one and the progress time is kept.  The test [prev == -1] is
    [prev = 65535] where [int] has 16 bits, so that there an unknown
    previous distance always makes progress, and is false where [int] is
    wider.  After an unknown distance the readings 65535, 100, 100, 90
    (and 100, 100, 90 alone) all make progress, with [_wrongDirection]
    clear at the start; the streak stays 0. *)
Theorem onNavControllerOutput_classifies (ib now d : Z) (m : MissionMonitor) :
  0 <= _lastDistanceToWaypoint m < 2 ^ 16 ->
  0 <= d < 2 ^ 16 ->
  let prev := _lastDistanceToWaypoint m in
  let m' := state_after (onNavControllerOutput ib now d) m in
  _lastDistanceToWaypoint m' = d
  /\ effects (onNavControllerOutput ib now d) m = []
  /\ (u16_eq_minus_one ib prev = true -> progress_made now m')
  /\ (prev = u16 (-1) -> d <> prev \/ _wrongDirection m = false ->
      progress_made now m')
  /\ (d < prev -> progress_made now m')
  /\ (d = prev -> _wrongDirection m = false -> progress_made now m')
  /\ (d = prev -> _wrongDirection m = true ->
      u16_eq_minus_one ib prev = false ->
      _lastProgressMadeTimeMilliseconds m' = _lastProgressMadeTimeMilliseconds m
      /\ _wrongDirection m' = true
      /\ _wrongDirectionCount m' = _wrongDirectionCount m)
  /\ (prev < d ->
      _lastProgressMadeTimeMilliseconds m' = _lastProgressMadeTimeMilliseconds m
      /\ _wrongDirection m' = true
      /\ _wrongDirectionCount m' = _wrongDirectionCount m + 1)
  /\ (ib <= 16 -> (u16_eq_minus_one ib prev = true <-> prev = u16 (-1)))
  /\ (ib <= 16 -> prev = u16 (-1) -> progress_made now m')
  /\ (16 < ib -> u16_eq_minus_one ib prev = false)
  /\ (forall (t0 t1 t2 t3 : Z) (m_0 : MissionMonitor),
         _lastDistanceToWaypoint m_0 = u16 (-1) ->
         _wrongDirection m_0 = false ->
         let m0 := state_after (onNavControllerOutput ib t0 (u16 (-1))) m_0 in
         let m1 := state_after (onNavControllerOutput ib t1 100) m0 in
         let m2 := state_after (onNavControllerOutput ib t2 100) m1 in
         let m3 := state_after (onNavControllerOutput ib t3 90) m2 in
         let n1 := state_after (onNavControllerOutput ib t1 100) m_0 in
         let n2 := state_after (onNavControllerOutput ib t2 100) n1 in
         let n3 := state_after (onNavControllerOutput ib t3 90) n2 in
         (progress_made t0 m0 /\ progress_made t1 m1 /\ progress_made t2 m2
          /\ progress_made t3 m3)
         /\ (progress_made t1 n1 /\ progress_made t2 n2 /\ progress_made t3 n3)).
Proof.
  intros Hprev Hd prev m'. subst prev m'.
  destruct (onNavControllerOutput_cases ib now d m Hprev Hd)
    as (H1 & H2 & H3 & H4 & H5 & H6 & H7 & H8).
  split; [exact H1|]. split; [exact H2|]. split; [exact H3|].
  split; [exact H4|]. split; [exact H5|]. split; [exact H6|].
  split; [exact H7|]. split; [exact H8|].
  split; [|split; [|split]].
  - intros Hib. unfold u16_eq_minus_one.
    apply Z.leb_le in Hib. rewrite Hib. apply Z.eqb_eq.
  - intros Hib Hunknown. apply H3. unfold u16_eq_minus_one.
    apply Z.leb_le in Hib. rewrite Hib. now apply Z.eqb_eq.
  - intros Hib. unfold u16_eq_minus_one.
    apply Z.leb_gt in Hib. rewrite Hib. apply Z.eqb_neq. lia.
  - intros t0 t1 t2 t3 m_0. apply readings_100_100_90.
Qed.

(** A rover in AUTO mode on its first leg, no distance known yet. *)
Lemma onNavControllerOutput_classifies_witness :
  progress_made 1500
    (state_after (onNavControllerOutput 32 1500 100) linked_monitor).
Proof.
  destruct (onNavControllerOutput_classifies 32 1500 100 linked_monitor)
    as (_ & _ & _ & _ & H & _).
  - vm_compute. split; [intros H; discriminate H | reflexivity].
  - vm_compute. split; [intros H; discriminate H | reflexivity].
  - apply H. vm_compute. reflexivity.
Defined.

(** C3 holds of the code where [int] has 16 bits and fails where it is
    wider: there the test [_lastDistanceToWaypoint == -1] is false for
    every value of the [uint16_t] member, so an unknown previous distance
    is not recognised and the reading falls through to the comparisons.
    On [second_leg_start] the rover moved away on its first leg and was
    sent to the next waypoint: the distance is unknown (65535) and
    [_wrongDirection] is still set.  The reading 65535 at 400 ms then
    takes the steady branch and makes no progress: the progress time
    stays 350, [_wrongDirection] stays set and the streak stays 1.  With
    a 16-bit [int] the same reading on the same run makes progress. *)
Theorem unknown_distance_not_recognised :
  (forall x : Z, u16_eq_minus_one 32 (u16 x) = false)
  /\ _lastDistanceToWaypoint (state_after (run 32 second_leg_start) fresh_monitor)
     = u16 (-1)
  /\ _wrongDirection (state_after (run 32 second_leg_start) fresh_monitor) = true
  /\ _lastProgressMadeTimeMilliseconds
       (state_after (run 32 second_leg_start) fresh_monitor) = 350
  /\ progressMade 32 (state_after (run 32 second_leg_start) fresh_monitor)
       (u16 (-1)) = false
  /\ _lastProgressMadeTimeMilliseconds
       (state_after (onNavControllerOutput 32 400 (u16 (-1)))
          (state_after (run 32 second_leg_start) fresh_monitor)) = 350
  /\ _wrongDirection
       (state_after (onNavControllerOutput 32 400 (u16 (-1)))
          (state_after (run 32 second_leg_start) fresh_monitor)) = true
  /\ _wrongDirectionCount
       (state_after (onNavControllerOutput 32 400 (u16 (-1)))
          (state_after (run 32 second_leg_start) fresh_monitor)) = 1
  /\ progress_made 400
       (state_after (onNavControllerOutput 16 400 (u16 (-1)))
          (state_after (run 16 second_leg_start) fresh_monitor)).
Proof.
  split.
  - intros x. unfold u16_eq_minus_one, u16. cbn [Z.leb Z.compare Pos.compare].
    change (32 <=? 16) with false. cbv iota. apply Z.eqb_neq.
    pose proof (Z.mod_pos_bound x (2 ^ 16) ltac:(lia)). lia.
  - vm_compute. repeat split; reflexivity.
Qed.

(** ** The wrong-direction sound *)

Ltac eqb_to_prop :=
  repeat match goal with
         | H : (_ =? _) = true |- _ => apply Z.eqb_eq in H
         | H : (_ =? _) = false |- _ => apply Z.eqb_neq in H
         end.

(** The sounds of [play] are the mode sounds only. *)
Lemma mode_sound_is_mode_sound (roverMode : Z) (sound : Sound) :
  mode_sound roverMode = Some sound ->
  Sound_eqb sound WRONG_DIRECTION_SOUND = false
  /\ Sound_eqb sound MAVLINK_GOOD_SOUND = false
  /\ Sound_eqb sound MAVLINK_BAD_SOUND = false.
Proof.
  unfold mode_sound.
  repeat match goal with
         | |- context [if ?c then _ else _] => destruct c
         end;
    intros H; inversion H; repeat split; reflexivity.
Qed.

(** Closes a branch in which a mode sound is taken for another sound. *)
Ltac mode_sound_clash :=
  match goal with
  | E : mode_sound _ = Some ?s, H : Sound_eqb ?s _ = true |- _ =>
      destruct (mode_sound_is_mode_sound _ _ E) as (? & ? & ?); congruence
  end.

(** A tick at streak 2, in AUTO mode with the latch clear. *)
Lemma tick_streak_two (now : Z) (m : MissionMonitor) :
  _isFailed m = false -> isAutoMode m = true -> _wrongDirectionCount m = 2 ->
  count_plays WRONG_DIRECTION_SOUND (effects (tick now) m) = 1%nat
  /\ _wrongDirectionCount (state_after (tick now) m) = 3.
Proof.
  intros Hf Hauto Hc.
  unfold tick, evaluateMission, failMission. unfold_monad.
  rewrite Hf, Hauto. split_branches; eqb_to_prop; try congruence;
    rewrite Hc; split; reflexivity.
Qed.

(** A tick at any other streak. *)
Lemma tick_streak_other (now : Z) (m : MissionMonitor) :
  _wrongDirectionCount m <> 2 ->
  count_plays WRONG_DIRECTION_SOUND (effects (tick now) m) = 0%nat
  /\ _wrongDirectionCount (state_after (tick now) m) = _wrongDirectionCount m.
Proof.
  intros Hc.
  unfold tick, evaluateMission, failMission. unfold_monad.
  split_branches; eqb_to_prop; try contradiction; split; reflexivity.
Qed.

(** No handler but [tick] plays the sound, and [tick] only at streak 2. *)
Lemma dispatch_streak_not_two (ib : Z) (ev : Event) (m : MissionMonitor) :
  _wrongDirectionCount m <> 2 ->
  count_plays WRONG_DIRECTION_SOUND (effects (dispatch ib ev) m) = 0%nat.
Proof.
  intros Hc.
  destruct ev as [t hb|t seq|t d|t seq|f|f|t]; cbn [dispatch].
  - unfold onHeatbeat, start, play. unfold_monad.
    open_monitor m. split_branches; try reflexivity; mode_sound_clash.
  - reflexivity.
  - unfold onNavControllerOutput. unfold_monad.
    open_monitor m. split_branches; reflexivity.
  - unfold onMissionCurrent. unfold_monad.
    open_monitor m. split_branches; reflexivity.
  - reflexivity.
  - reflexivity.
  - apply tick_streak_other, Hc.
Qed.

(** From a streak of 3 or more, an event is silent and either keeps the
    streak at 3 or more or puts it back to 0. *)
Lemma dispatch_streak_past_two (ib : Z) (ev : Event) (m : MissionMonitor) :
  3 <= _wrongDirectionCount m ->
  count_plays WRONG_DIRECTION_SOUND (effects (dispatch ib ev) m) = 0%nat
  /\ (3 <= _wrongDirectionCount (state_after (dispatch ib ev) m)
      \/ _wrongDirectionCount (state_after (dispatch ib ev) m) = 0).
Proof.
  intros Hc.
  destruct ev as [t hb|t seq|t d|t seq|f|f|t]; cbn [dispatch].
  - unfold onHeatbeat, start, play. unfold_monad.
    open_monitor m. cbn in Hc |- *.
    split_branches; split; try reflexivity; auto; mode_sound_clash.
  - split; [reflexivity | now left].
  - unfold onNavControllerOutput. unfold_monad.
    open_monitor m. cbn in Hc |- *.
    split_branches; split; try reflexivity; auto; left; lia.
  - unfold onMissionCurrent. unfold_monad.
    open_monitor m. cbn in Hc |- *.
    split_branches; split; try reflexivity; auto.
  - split; [reflexivity | now left].
  - split; [reflexivity | now left].
  - destruct (tick_streak_other t m) as [Hplay Hcount]; [lia|].
    rewrite Hplay, Hcount. split; [reflexivity | now left].
Qed.

Lemma run_streak_past_two (ib : Z) (evs : list Event) (m : MissionMonitor) :
  3 <= _wrongDirectionCount m ->
  (forall pre post, evs = pre ++ post ->
                    _wrongDirectionCount (state_after (run ib pre) m) <> 0) ->
  count_plays WRONG_DIRECTION_SOUND (effects (run ib evs) m) = 0%nat.
Proof.
  revert m. induction evs as [|ev evs IH]; intros m Hc Hnz.
  - reflexivity.
  - cbn [run]. rewrite effects_seq, count_plays_app.
    destruct (dispatch_streak_past_two ib ev m Hc) as [Hplay [Hc1|Hc1]].
    + rewrite Hplay, (IH _ Hc1); [reflexivity|].
      intros pre post Heq.
      specialize (Hnz (ev :: pre) post). cbn [run app] in Hnz.
      rewrite state_after_seq in Hnz. apply Hnz. now rewrite Heq.
    + exfalso. apply (Hnz [ev] evs eq_refl).
      cbn [run]. rewrite state_after_seq. exact Hc1.
Qed.

(** The distances 50, 60 and 70 after an unknown distance: the second and
    the third reading move away. *)
Lemma readings_50_60_70 (ib t1 t2 t3 : Z) (m : MissionMonitor) :
  _lastDistanceToWaypoint m = u16 (-1) ->
  let m1 := state_after (onNavControllerOutput ib t1 50) m in
  let m2 := state_after (onNavControllerOutput ib t2 60) m1 in
  let m3 := state_after (onNavControllerOutput ib t3 70) m2 in
  _wrongDirectionCount m1 = 0 /\ _wrongDirectionCount m2 = 1
  /\ _wrongDirectionCount m3 = 2.
Proof.
  intros Hprev m1 m2 m3. change (u16 (-1)) with 65535 in Hprev.
  destruct (onNavControllerOutput_cases ib t1 50 m)
    as (D1 & _ & _ & _ & P1 & _); try lia.
  fold m1 in D1, P1.
  destruct P1 as (_ & _ & C1); [lia|].
  destruct (onNavControllerOutput_cases ib t2 60 m1)
    as (D2 & _ & _ & _ & _ & _ & _ & A2); try lia.
  fold m2 in D2, A2.
  destruct A2 as (_ & _ & C2); [lia|].
  destruct (onNavControllerOutput_cases ib t3 70 m2)
    as (D3 & _ & _ & _ & _ & _ & _ & A3); try lia.
  fold m3 in A3.
  destruct A3 as (_ & _ & C3); [lia|].
  repeat split; lia.
Qed.

Lemma wrong_way_trace (ib : Z) :
  count_plays WRONG_DIRECTION_SOUND
    (effects (run ib wrong_way_start) fresh_monitor) = 0%nat
  /\ _wrongDirectionCount (state_after (run ib wrong_way_start) fresh_monitor) = 2
  /\ count_plays WRONG_DIRECTION_SOUND
       (effects (run ib (wrong_way_start ++ [Tick 350])) fresh_monitor) = 1%nat
  /\ _wrongDirectionCount
       (state_after (run ib (wrong_way_start ++ [Tick 350])) fresh_monitor) = 3
  /\ count_plays WRONG_DIRECTION_SOUND
       (effects (run ib (wrong_way_start ++ wrong_way_rest)) fresh_monitor) = 1%nat
  /\ _wrongDirectionCount
       (state_after (run ib (wrong_way_start ++ wrong_way_rest)) fresh_monitor) = 4.
Proof.
  unfold state_after, effects. rewrite !(run_width ib).
  destruct (ib <=? 16); vm_compute; repeat split; reflexivity.
Qed.

(** C7: the wrong-direction sound is played by a tick exactly at streak 2.
    A tick in AUTO mode with the latch clear and the streak at 2 plays it
    once and leaves the streak at 3; a tick at any other streak does not
    play it and keeps the streak, and no other handler plays it at all at
    such a streak.  From a streak of 3 or more no sequence
    of events plays it unless the streak is first put back to 0, and a
    tick at streak 0 does not play it either: it needs a new streak of
    two.  After an unknown distance the readings 50, 60, 70 bring the
    streak to 0, 1, 2; on the rover of [wrong_way_start] the sound is
    played once, by the first tick after the third reading, and not again
    by the next tick or after the fourth reading. *)
Theorem wrong_direction_sound_once_per_streak :
  (forall (now : Z) (m : MissionMonitor),
      _isFailed m = false -> isAutoMode m = true -> _wrongDirectionCount m = 2 ->
      count_plays WRONG_DIRECTION_SOUND (effects (tick now) m) = 1%nat
      /\ _wrongDirectionCount (state_after (tick now) m) = 3)
  /\ (forall (now : Z) (m : MissionMonitor),
         _wrongDirectionCount m <> 2 ->
         count_plays WRONG_DIRECTION_SOUND (effects (tick now) m) = 0%nat
         /\ _wrongDirectionCount (state_after (tick now) m)
            = _wrongDirectionCount m)
  /\ (forall (ib : Z) (ev : Event) (m : MissionMonitor),
         _wrongDirectionCount m <> 2 ->
         count_plays WRONG_DIRECTION_SOUND (effects (dispatch ib ev) m) = 0%nat)
  /\ (forall (ib : Z) (evs : list Event) (m : MissionMonitor),
         3 <= _wrongDirectionCount m ->
         (forall pre post, evs = pre ++ post ->
                           _wrongDirectionCount (state_after (run ib pre) m) <> 0) ->
         count_plays WRONG_DIRECTION_SOUND (effects (run ib evs) m) = 0%nat)
  /\ (forall (ib t1 t2 t3 : Z) (m : MissionMonitor),
         _lastDistanceToWaypoint m = u16 (-1) ->
         let m1 := state_after (onNavControllerOutput ib t1 50) m in
         let m2 := state_after (onNavControllerOutput ib t2 60) m1 in
         let m3 := state_after (onNavControllerOutput ib t3 70) m2 in
         _wrongDirectionCount m1 = 0 /\ _wrongDirectionCount m2 = 1
         /\ _wrongDirectionCount m3 = 2)
  /\ (forall ib : Z,
         count_plays WRONG_DIRECTION_SOUND
           (effects (run ib wrong_way_start) fresh_monitor) = 0%nat
         /\ _wrongDirectionCount
              (state_after (run ib wrong_way_start) fresh_monitor) = 2
         /\ count_plays WRONG_DIRECTION_SOUND
              (effects (run ib (wrong_way_start ++ [Tick 350])) fresh_monitor)
            = 1%nat
         /\ _wrongDirectionCount
              (state_after (run ib (wrong_way_start ++ [Tick 350])) fresh_monitor)
            = 3
         /\ count_plays WRONG_DIRECTION_SOUND
              (effects (run ib (wrong_way_start ++ wrong_way_rest)) fresh_monitor)
            = 1%nat
         /\ _wrongDirectionCount
              (state_after (run ib (wrong_way_start ++ wrong_way_rest))
                 fresh_monitor)
            = 4).
Proof.
  split; [exact tick_streak_two|].
  split; [exact tick_streak_other|].
  split; [exact dispatch_streak_not_two|].
  split; [exact run_streak_past_two|].
  split; [exact readings_50_60_70 | exact wrong_way_trace].
Qed.

Lemma wrong_direction_sound_once_per_streak_witness :
  count_plays WRONG_DIRECTION_SOUND
    (effects (tick 350) (state_after (run 32 wrong_way_start) fresh_monitor))
  = 1%nat
  /\ _wrongDirectionCount
       (state_after (tick 350) (state_after (run 32 wrong_way_start) fresh_monitor))
     = 3.
Proof.
  destruct wrong_direction_sound_once_per_streak as (H & _).
  apply (H 350 (state_after (run 32 wrong_way_start) fresh_monitor)).
  - vm_compute. reflexivity.
  - vm_compute. reflexivity.
  - vm_compute. reflexivity.
Defined.

(** ** The progress timer *)










(** ** The link sounds *)

(** Each event keeps the balance between the link-acquired sounds, the
    link-lost sounds and the flag [_firstHeartbeat]. *)
Lemma dispatch_link_sounds (ib : Z) (ev : Event) (m : MissionMonitor) :
  (count_plays MAVLINK_GOOD_SOUND (effects (dispatch ib ev) m)
   + awaiting_heartbeat (state_after (dispatch ib ev) m))%nat
  = (awaiting_heartbeat m
     + count_plays MAVLINK_BAD_SOUND (effects (dispatch ib ev) m))%nat.
Proof.
  unfold awaiting_heartbeat.
  destruct ev as [t hb|t seq|t d|t seq|f|f|t]; cbn [dispatch].
  - unfold onHeatbeat, start, play. unfold_monad.
    open_monitor m. split_branches; try reflexivity; mode_sound_clash.
  - cbn. destruct (_firstHeartbeat m); reflexivity.
  - unfold onNavControllerOutput. unfold_monad.
    open_monitor m. split_branches; reflexivity.
  - unfold onMissionCurrent. unfold_monad.
    open_monitor m. split_branches; reflexivity.
  - cbn. destruct (_firstHeartbeat m); reflexivity.
  - cbn. destruct (_firstHeartbeat m); reflexivity.
  - unfold tick, evaluateMission, failMission, mavlinkLost. unfold_monad.
    open_monitor m. destruct fh; split_branches; reflexivity.
Qed.

Lemma run_link_sounds (ib : Z) (evs : list Event) (m : MissionMonitor) :
  (count_plays MAVLINK_GOOD_SOUND (effects (run ib evs) m)
   + awaiting_heartbeat (state_after (run ib evs) m))%nat
  = (awaiting_heartbeat m
     + count_plays MAVLINK_BAD_SOUND (effects (run ib evs) m))%nat.
Proof.
  revert m. induction evs as [|ev evs IH]; intros m.
  - cbn. unfold awaiting_heartbeat. destruct (_firstHeartbeat m); reflexivity.
  - cbn [run]. rewrite effects_seq, state_after_seq, !count_plays_app.
    pose proof (dispatch_link_sounds ib ev m) as Hev.
    pose proof (IH (state_after (dispatch ib ev) m)) as Hrest.
    lia.
Qed.

(** What a heartbeat does to the link-acquired sound. *)
Lemma onHeatbeat_link_sound (now : Z) (hb : mavlink_heartbeat_t)
    (m : MissionMonitor) :
  count_plays MAVLINK_GOOD_SOUND (effects (onHeatbeat now hb) m)
  = awaiting_heartbeat m
  /\ _firstHeartbeat (state_after (onHeatbeat now hb) m) = true.
Proof.
  pose proof (dispatch_link_sounds 32 (Heatbeat now hb) m) as Hbal.
  cbn [dispatch] in Hbal.
  assert (Hfh : _firstHeartbeat (state_after (onHeatbeat now hb) m) = true
                /\ count_plays MAVLINK_BAD_SOUND (effects (onHeatbeat now hb) m)
                   = 0%nat).
  { unfold onHeatbeat, start, play. unfold_monad.
    open_monitor m. split_branches; split; try reflexivity; mode_sound_clash. }
  destruct Hfh as [Hfh Hbad]. split; [|exact Hfh].
  unfold awaiting_heartbeat in Hbal at 1. rewrite Hfh, Hbad in Hbal. lia.
Qed.

(** Before the first heartbeat the flag is clear: only [onHeatbeat] sets
    it. *)
Lemma run_no_heartbeat (ib : Z) (evs : list Event) (m : MissionMonitor) :
  _firstHeartbeat m = false ->
  (forall t hb, ~ In (Heatbeat t hb) evs) ->
  _firstHeartbeat (state_after (run ib evs) m) = false.
Proof.
  revert m. induction evs as [|ev evs IH]; intros m Hfh Hnone.
  - exact Hfh.
  - cbn [run]. rewrite state_after_seq. apply IH.
    + destruct ev as [t hb|t seq|t d|t seq|f|f|t]; cbn [dispatch].
      * exfalso. apply (Hnone t hb). now left.
      * exact Hfh.
      * unfold onNavControllerOutput. unfold_monad.
        open_monitor m. cbn in Hfh |- *. split_branches; exact Hfh.
      * unfold onMissionCurrent. unfold_monad.
        open_monitor m. cbn in Hfh |- *. split_branches; exact Hfh.
      * exact Hfh.
      * exact Hfh.
      * unfold tick, evaluateMission, failMission. unfold_monad.
        open_monitor m. cbn in Hfh |- *. subst fh.
        split_branches; reflexivity.
    + intros t hb Hin. apply (Hnone t hb). now right.
Qed.

(** C8, as the code has it: [_firstHeartbeat] is cleared again when a
    tick finds the link lost ("start looking for first heartbeat again").
    A heartbeat plays the link-acquired sound exactly when no heartbeat is
    on record, and puts one on record.  Over any run, the link-acquired
    sounds plus one if no heartbeat is on record at the end equal the
    link-lost sounds plus one if none was on record at the start.  So the
    first heartbeat after construction plays the sound, and a run from
    construction without a link-lost sound plays it at most once. *)
Theorem link_acquired_sound_once_per_link :
  (forall (now : Z) (hb : mavlink_heartbeat_t) (m : MissionMonitor),
      count_plays MAVLINK_GOOD_SOUND (effects (onHeatbeat now hb) m)
      = awaiting_heartbeat m
      /\ _firstHeartbeat (state_after (onHeatbeat now hb) m) = true)
  /\ (forall (ib : Z) (evs : list Event) (m : MissionMonitor),
         (count_plays MAVLINK_GOOD_SOUND (effects (run ib evs) m)
          + awaiting_heartbeat (state_after (run ib evs) m))%nat
         = (awaiting_heartbeat m
            + count_plays MAVLINK_BAD_SOUND (effects (run ib evs) m))%nat)
  /\ (forall (ib secs lowest hb0 : Z) (evs : list Event) (t : Z)
             (hb : mavlink_heartbeat_t),
         (forall t' hb', ~ In (Heatbeat t' hb') evs) ->
         count_plays MAVLINK_GOOD_SOUND
           (effects (onHeatbeat t hb)
              (state_after (run ib evs) (MissionMonitor_new secs lowest hb0)))
         = 1%nat)
  /\ (forall (ib secs lowest hb0 : Z) (evs : list Event),
         count_plays MAVLINK_BAD_SOUND
           (effects (run ib evs) (MissionMonitor_new secs lowest hb0)) = 0%nat ->
         (count_plays MAVLINK_GOOD_SOUND
            (effects (run ib evs) (MissionMonitor_new secs lowest hb0)) <= 1)%nat).
Proof.
  split; [exact onHeatbeat_link_sound|]. split; [exact run_link_sounds|]. split.
  - intros ib secs lowest hb0 evs t hb Hnone.
    destruct (onHeatbeat_link_sound t hb
                (state_after (run ib evs) (MissionMonitor_new secs lowest hb0)))
      as [Hplay _].
    rewrite Hplay. unfold awaiting_heartbeat.
    rewrite (run_no_heartbeat ib evs (MissionMonitor_new secs lowest hb0)
               eq_refl Hnone).
    reflexivity.
  - intros ib secs lowest hb0 evs Hbad.
    pose proof (run_link_sounds ib evs (MissionMonitor_new secs lowest hb0)) as Hbal.
    rewrite Hbad in Hbal. unfold awaiting_heartbeat in Hbal at 2.
    cbn [_firstHeartbeat MissionMonitor_new] in Hbal. lia.
Qed.

Lemma link_acquired_sound_once_per_link_witness :
  count_plays MAVLINK_GOOD_SOUND
    (effects (onHeatbeat 20 (mk_heartbeat MAV_TYPE_GROUND_ROVER ROVER_MODE_HOLD 0))
       (state_after (run 32 [Tick 10; GPSRawInt GPS_FIX_TYPE_3D_FIX])
          (MissionMonitor_new 5 GPS_FIX_TYPE_3D_FIX 0)))
  = 1%nat.
Proof.
  destruct link_acquired_sound_once_per_link as (_ & _ & H & _).
  apply (H 32 5 GPS_FIX_TYPE_3D_FIX 0 [Tick 10; GPSRawInt GPS_FIX_TYPE_3D_FIX] 20
           (mk_heartbeat MAV_TYPE_GROUND_ROVER ROVER_MODE_HOLD 0)).
  intros t' hb' Hin. cbn in Hin.
  repeat (destruct Hin as [Hin|Hin]; [discriminate Hin|]). exact Hin.
Defined.

(** C8 as it is worded, a one-shot for the lifetime of the monitor, fails:
    a heartbeat, a tick that finds the link lost five seconds later, and a
    second heartbeat play the link-acquired sound twice. *)
Lemma link_acquired_sound_again_after_link_loss :
  ~ (forall (ib : Z) (evs : list Event),
        (count_plays MAVLINK_GOOD_SOUND (effects (run ib evs) fresh_monitor) <= 1)%nat).
Proof.
  intros H.
  specialize (H 32
    [Heatbeat 0 (mk_heartbeat MAV_TYPE_GROUND_ROVER ROVER_MODE_AUTO 0);
     Tick 5000;
     Heatbeat 5100 (mk_heartbeat MAV_TYPE_GROUND_ROVER ROVER_MODE_AUTO 0)]).
  vm_compute in H. lia.
Qed.

(** * Further properties of the member functions *)

(** The sounds of [play] are none of the six sounds of the monitor
    itself. *)
Lemma mode_sound_other_sounds (roverMode : Z) (sound : Sound) :
  mode_sound roverMode = Some sound ->
  Sound_eqb sound READY_SOUND = false
  /\ Sound_eqb sound EMERGENCY_STOP_SOUND = false
  /\ Sound_eqb sound GPS_SIGNAL_LOW_SOUND = false.
Proof.
  unfold mode_sound.
  repeat match goal with
         | |- context [if ?c then _ else _] => destruct c
         end;
    intros H; inversion H; repeat split; reflexivity.
Qed.

Ltac mode_sound_clash' :=
  match goal with
  | E : mode_sound _ = Some ?s, H : Sound_eqb ?s _ = true |- _ =>
      destruct (mode_sound_other_sounds _ _ E) as (? & ? & ?); congruence
  end.

(** ** The ready sound *)

Lemma dispatch_ready_sound (ib : Z) (ev : Event) (m : MissionMonitor) :
  count_plays READY_SOUND (effects (dispatch ib ev) m)
  = (if negb (_firstTick m) && is_tick ev then 1%nat else 0%nat)
  /\ _firstTick (state_after (dispatch ib ev) m) = _firstTick m || is_tick ev.
Proof.
  destruct ev as [t hb|t seq|t d|t seq|f|f|t]; cbn [dispatch is_tick];
    rewrite ?andb_false_r, ?orb_false_r, ?orb_true_r, ?andb_true_r.
  - unfold onHeatbeat, start, play. unfold_monad.
    open_monitor m. split_branches; split; try reflexivity; mode_sound_clash'.
  - split; reflexivity.
  - unfold onNavControllerOutput. unfold_monad.
    open_monitor m. split_branches; split; reflexivity.
  - unfold onMissionCurrent. unfold_monad.
    open_monitor m. split_branches; split; reflexivity.
  - split; reflexivity.
  - split; reflexivity.
  - split; [|apply tick_sets_firstTick].
    unfold tick, evaluateMission, failMission. unfold_monad.
    open_monitor m. destruct ft; split_branches; reflexivity.
Qed.

(** X1: the ready sound is played once, by the first tick the monitor
    ever runs, whatever that tick finds: over any run, it is played once
    if [_firstTick] was clear and the run holds a tick, and not at all
    otherwise; [_firstTick] ends set exactly when it was set or a tick
    ran.  No other handler and no later tick plays it. *)
Theorem ready_sound_at_first_tick (ib : Z) (evs : list Event) (m : MissionMonitor) :
  count_plays READY_SOUND (effects (run ib evs) m)
  = (if negb (_firstTick m) && existsb is_tick evs then 1%nat else 0%nat)
  /\ _firstTick (state_after (run ib evs) m) = _firstTick m || existsb is_tick evs.
Proof.
  revert m. induction evs as [|ev evs IH]; intros m.
  - cbn. rewrite andb_false_r, orb_false_r. split; reflexivity.
  - cbn [run existsb]. rewrite effects_seq, state_after_seq, count_plays_app.
    destruct (dispatch_ready_sound ib ev m) as [Hplay Hft].
    destruct (IH (state_after (dispatch ib ev) m)) as [IHplay IHft].
    rewrite Hplay, IHplay, IHft, Hft.
    destruct (_firstTick m), (is_tick ev), (existsb is_tick evs); split; reflexivity.
Qed.

(** ** When the failsafe trips *)

(** X2: a tick that starts with the latch clear sets it exactly when the
    link is lost, or the rover is in AUTO mode with an acceptable fix and
    has made no progress for the timeout.  An unacceptable fix masks the
    stall, and outside AUTO mode a stall never trips the failsafe.  Each
    of the two conditions calls [failMission] on its own: the
    emergency-stop sound is played once for each that holds, so twice
    when the link is lost by a stalled rover. *)
Theorem tick_failsafe_conditions (now : Z) (m : MissionMonitor) :
  _isFailed m = false ->
  _isFailed (state_after (tick now) m)
  = mavlinkLost now m
    || (isAutoMode m && negb (gpsLost m) && noProgress now m)
  /\ count_plays EMERGENCY_STOP_SOUND (effects (tick now) m)
     = ((if mavlinkLost now m then 1 else 0)
        + (if isAutoMode m && negb (gpsLost m) && noProgress now m
           then 1 else 0))%nat
  /\ count_plays MAVLINK_BAD_SOUND (effects (tick now) m)
     = (if mavlinkLost now m then 1%nat else 0%nat).
Proof.
  intros Hf.
  unfold tick, evaluateMission, failMission. unfold_monad.
  rewrite Hf.
  destruct (mavlinkLost now m), (isAutoMode m), (gpsLost m), (noProgress now m);
    split_branches; repeat split; try reflexivity; assumption.
Qed.

Lemma tick_failsafe_conditions_witness :
  _isFailed (state_after (tick 6000) silent_stalled_monitor) = true
  /\ count_plays EMERGENCY_STOP_SOUND (effects (tick 6000) silent_stalled_monitor)
     = 2%nat.
Proof.
  destruct (tick_failsafe_conditions 6000 silent_stalled_monitor)
    as (Hf & Hplay & _).
  - vm_compute. reflexivity.
  - split.
    + rewrite Hf. vm_compute. reflexivity.
    + rewrite Hplay. vm_compute. reflexivity.
Defined.

(** ** Mode requests *)

(** X3: a tick requests at most one mode, and never the mode on record:
    a request made by a tick is either HOLD, made in AUTO mode without an
    acceptable fix, or AUTO, made in HOLD mode with an acceptable fix;
    in both cases the latch was clear when the tick started. *)
Theorem tick_mode_request_origin (now roverMode : Z) (m : MissionMonitor) :
  In (sendModeChange roverMode) (effects (tick now) m) ->
  _isFailed m = false
  /\ ((roverMode = ROVER_MODE_HOLD /\ isAutoMode m = true /\ gpsLost m = true)
      \/ (roverMode = ROVER_MODE_AUTO /\ isHoldMode m = true
          /\ isAutoMode m = false /\ gpsLost m = false))
  /\ (length (filter is_mode_request (effects (tick now) m)) <= 1)%nat.
Proof.
  unfold tick, evaluateMission, failMission. unfold_monad.
  destruct (_isFailed m), (mavlinkLost now m), (isAutoMode m), (isHoldMode m),
    (gpsLost m), (noProgress now m);
    split_branches; intros Hin;
    repeat (destruct Hin as [Hin|Hin]; [try discriminate Hin|]);
    try contradiction;
    inversion Hin; subst;
    (split; [reflexivity|]); (split; [|cbn; lia]);
    first [left; repeat split; reflexivity | right; repeat split; reflexivity].
Qed.

Lemma tick_mode_request_origin_witness :
  _isFailed linked_monitor = false
  /\ isAutoMode linked_monitor = true /\ gpsLost linked_monitor = true.
Proof.
  destruct (tick_mode_request_origin 100 ROVER_MODE_HOLD linked_monitor)
    as (Hf & [(_ & Ha & Hg)|(Hne & _)] & _).
  - vm_compute. left. reflexivity.
  - repeat split; assumption.
  - discriminate Hne.
Defined.

(** X4: a tick that finds nothing to do does nothing.  After the first
    tick, with the latch clear and the link up, a tick returns the monitor
    unchanged and calls no collaborator when the rover is in AUTO mode
    with an acceptable fix, progress within the timeout and a streak other
    than 2; when it is in HOLD mode without an acceptable fix; and when it
    is in any other mode. *)
Theorem tick_nothing_to_do (now : Z) (m : MissionMonitor) :
  _firstTick m = true ->
  _isFailed m = false ->
  mavlinkLost now m = false ->
  (isAutoMode m = true /\ gpsLost m = false /\ noProgress now m = false
   /\ _wrongDirectionCount m <> 2)
  \/ (isAutoMode m = false /\ isHoldMode m = true /\ gpsLost m = true)
  \/ (isAutoMode m = false /\ isHoldMode m = false) ->
  tick now m = (tt, m, []).
Proof.
  intros Hft Hf Hlink Hcase.
  unfold tick, evaluateMission, failMission. unfold_monad.
  rewrite Hf, Hlink. cbn.
  destruct Hcase as [(Ha & Hg & Hp & Hc)|[(Ha & Hh & Hg)|(Ha & Hh)]].
  - rewrite Ha, Hg, Hp. cbn. apply Z.eqb_neq in Hc. rewrite Hc. cbn.
    rewrite Hft. reflexivity.
  - rewrite Ha, Hh, Hg. cbn. rewrite Hft. reflexivity.
  - rewrite Ha, Hh. cbn. rewrite Hft. reflexivity.
Qed.

Lemma tick_nothing_to_do_witness :
  tick 2000 (state_after (tick 1000) silent_stalled_monitor)
  = (tt, state_after (tick 1000) silent_stalled_monitor, []).
Proof.
  apply (tick_nothing_to_do 2000 (state_after (tick 1000) silent_stalled_monitor)).
  - vm_compute. reflexivity.
  - vm_compute. reflexivity.
  - vm_compute. reflexivity.
  - left. vm_compute. repeat split; try reflexivity. intros H. discriminate H.
Defined.

(** ** The relay pair *)

Lemma relays_after_app (out1 out2 : list Effect) (r : bool * bool) :
  relays_after (out1 ++ out2) r = relays_after out2 (relays_after out1 r).
Proof. unfold relays_after. apply fold_left_app. Qed.

Lemma relays_after_no_call (out : list Effect) (r : bool * bool) :
  existsb is_relay_call out = false -> relays_after out r = r.
Proof.
  unfold relays_after. revert r. induction out as [|e out IH]; intros r Hnone.
  - reflexivity.
  - cbn in Hnone. apply orb_false_elim in Hnone. destruct Hnone as [He Hout].
    cbn. rewrite <- (IH r Hout) at 2. destruct e; try discriminate He; reflexivity.
Qed.

(** An event either leaves relay and latch alone or puts the relay pair
    where the latch it leaves behind wants it. *)
Lemma dispatch_relays (ib : Z) (ev : Event) (m : MissionMonitor) (r : bool * bool) :
  (existsb is_relay_call (effects (dispatch ib ev) m) = false
   /\ _isFailed (state_after (dispatch ib ev) m) = _isFailed m)
  \/ relays_after (effects (dispatch ib ev) m) r
     = relays_of_latch (state_after (dispatch ib ev) m).
Proof.
  unfold relays_of_latch, relays_after. destruct r as [power alarm].
  destruct ev as [t hb|t seq|t d|t seq|f|f|t]; cbn [dispatch].
  - unfold onHeatbeat, start, play. unfold_monad.
    open_monitor m.
    split_branches;
      first [left; split; reflexivity | right; reflexivity].
  - left. split; reflexivity.
  - unfold onNavControllerOutput. unfold_monad.
    open_monitor m. split_branches; left; split; reflexivity.
  - unfold onMissionCurrent. unfold_monad.
    open_monitor m. split_branches; left; split; reflexivity.
  - left. split; reflexivity.
  - left. split; reflexivity.
  - unfold tick, evaluateMission, failMission. unfold_monad.
    open_monitor m.
    split_branches;
      first [left; split; reflexivity | right; reflexivity].
Qed.

Lemma run_relays (ib : Z) (evs : list Event) (m : MissionMonitor) (r : bool * bool) :
  (existsb is_relay_call (effects (run ib evs) m) = false
   /\ _isFailed (state_after (run ib evs) m) = _isFailed m)
  \/ relays_after (effects (run ib evs) m) r
     = relays_of_latch (state_after (run ib evs) m).
Proof.
  revert m r. induction evs as [|ev evs IH]; intros m r.
  - left. split; reflexivity.
  - cbn [run]. rewrite effects_seq, state_after_seq, existsb_app, relays_after_app.
    destruct (IH (state_after (dispatch ib ev) m)
                 (relays_after (effects (dispatch ib ev) m) r))
      as [[Hnone Hsame]|Hset].
    + destruct (dispatch_relays ib ev m r) as [[Hnone1 Hsame1]|Hset1].
      * left. rewrite Hnone1, Hnone, Hsame, Hsame1. split; reflexivity.
      * right. rewrite (relays_after_no_call _ _ Hnone), Hset1.
        unfold relays_of_latch. now rewrite Hsame.
    + right. exact Hset.
Qed.

(** X5: the relay pair follows the latch.  Over any run, either the
    relay is not called and the latch keeps its value, or the pair ends
    where the latch wants it, whatever state it started from: power on and
    alarm off with the latch clear, power off and alarm on with the latch
    set.  So a pair that agreed with the latch before a run agrees with
    it after the run. *)
Theorem relays_follow_latch (ib : Z) (evs : list Event) (m : MissionMonitor)
    (r : bool * bool) :
  ((existsb is_relay_call (effects (run ib evs) m) = false
    /\ _isFailed (state_after (run ib evs) m) = _isFailed m)
   \/ relays_after (effects (run ib evs) m) r
      = relays_of_latch (state_after (run ib evs) m))
  /\ (r = relays_of_latch m ->
      relays_after (effects (run ib evs) m) r
      = relays_of_latch (state_after (run ib evs) m)).
Proof.
  split; [apply run_relays|]. intros Hr.
  destruct (run_relays ib evs m r) as [[Hnone Hsame]|Hset]; [|exact Hset].
  rewrite (relays_after_no_call _ _ Hnone), Hr.
  unfold relays_of_latch. now rewrite Hsame.
Qed.

Lemma relays_follow_latch_witness :
  relays_after
    (effects (run 32 [Tick 5000;
                      Heatbeat 5100 (mk_heartbeat MAV_TYPE_GROUND_ROVER
                                       ROVER_MODE_MANUAL 0)])
       linked_monitor)
    (true, false)
  = (true, false).
Proof.
  destruct (relays_follow_latch 32
              [Tick 5000;
               Heatbeat 5100 (mk_heartbeat MAV_TYPE_GROUND_ROVER ROVER_MODE_MANUAL 0)]
              linked_monitor (true, false)) as [_ H].
  rewrite H; [|vm_compute; reflexivity]. vm_compute. reflexivity.
Defined.

(** ** Who calls what *)

(** X6: a telemetry message that is no heartbeat (waypoint reached,
    distance, current waypoint, either GPS fix) calls no collaborator and
    touches neither the latch, the mode on record, the heartbeat
    bookkeeping nor the tick flag: it cannot trip or clear the failsafe. *)
Theorem telemetry_is_silent (ib : Z) (ev : Event) (m : MissionMonitor) :
  is_telemetry ev = true ->
  effects (dispatch ib ev) m = []
  /\ _isFailed (state_after (dispatch ib ev) m) = _isFailed m
  /\ _roverMode (state_after (dispatch ib ev) m) = _roverMode m
  /\ _firstHeartbeat (state_after (dispatch ib ev) m) = _firstHeartbeat m
  /\ _lastHeartbeatTimeMilliseconds (state_after (dispatch ib ev) m)
     = _lastHeartbeatTimeMilliseconds m
  /\ _firstTick (state_after (dispatch ib ev) m) = _firstTick m.
Proof.
  intros Htel.
  destruct ev as [t hb|t seq|t d|t seq|f|f|t]; try discriminate Htel;
    cbn [dispatch].
  - repeat split; reflexivity.
  - unfold onNavControllerOutput. unfold_monad.
    open_monitor m. split_branches; repeat split; reflexivity.
  - unfold onMissionCurrent. unfold_monad.
    open_monitor m. split_branches; repeat split; reflexivity.
  - repeat split; reflexivity.
  - repeat split; reflexivity.
Qed.

Lemma telemetry_is_silent_witness :
  effects (dispatch 32 (NavControllerOutput 5000 700)) silent_stalled_monitor = []
  /\ _isFailed (state_after (dispatch 32 (NavControllerOutput 5000 700))
                  silent_stalled_monitor) = false.
Proof.
  destruct (telemetry_is_silent 32 (NavControllerOutput 5000 700)
              silent_stalled_monitor) as (H1 & H2 & _).
  - reflexivity.
  - split; [exact H1|]. rewrite H2. vm_compute. reflexivity.
Defined.

(** X7: the calls are split between the two active handlers.
    [onHeatbeat] only plays sounds and arms the relay pair (power on,
    alarm off): it never trips the relay and never requests a mode.
    [tick] only plays its own five sounds, trips the relay pair (power
    off, alarm on) and requests modes: it never arms the relay and never
    plays a mode sound or the link-acquired sound. *)
Theorem calls_by_handler (now : Z) (hb : mavlink_heartbeat_t) (m : MissionMonitor) :
  forallb heartbeat_call (effects (onHeatbeat now hb) m) = true
  /\ forallb tick_call (effects (tick now) m) = true.
Proof.
  split.
  - unfold onHeatbeat, start, play. unfold_monad.
    open_monitor m. split_branches; reflexivity.
  - unfold tick, evaluateMission, failMission. unfold_monad.
    open_monitor m. split_branches; reflexivity.
Qed.

(** ** The mode on record *)

Lemma dispatch_reported_mode (ib : Z) (ev : Event) (m : MissionMonitor) :
  _roverMode (state_after (dispatch ib ev) m) = reported_mode (_roverMode m) ev.
Proof.
  destruct ev as [t hb|t seq|t d|t seq|f|f|t]; cbn [dispatch reported_mode].
  - unfold onHeatbeat, start, play. unfold_monad.
    change (u8 MAV_TYPE_GROUND_ROVER) with MAV_TYPE_GROUND_ROVER.
    open_monitor m. cbn.
    destruct (type hb =? MAV_TYPE_GROUND_ROVER);
      [destruct (Z.eqb_spec (custom_mode hb) mode) as [Heq|Hne]|];
      split_branches; congruence.
  - reflexivity.
  - unfold onNavControllerOutput. unfold_monad.
    open_monitor m. split_branches; reflexivity.
  - unfold onMissionCurrent. unfold_monad.
    open_monitor m. split_branches; reflexivity.
  - reflexivity.
  - reflexivity.
  - unfold tick, evaluateMission, failMission. unfold_monad.
    open_monitor m. split_branches; reflexivity.
Qed.

(** X8: the mode on record after any run is the custom mode of the last
    heartbeat of a ground rover in the run, and the mode on record before
    the run when there is none.  The monitor never changes it on its own:
    a HOLD or AUTO request of a tick only shows once the controller
    reports the new mode. *)
Theorem mode_on_record (ib : Z) (evs : list Event) (m : MissionMonitor) :
  _roverMode (state_after (run ib evs) m)
  = fold_left reported_mode evs (_roverMode m).
Proof.
  revert m. induction evs as [|ev evs IH]; intros m.
  - reflexivity.
  - cbn [run fold_left]. rewrite state_after_seq, IH, dispatch_reported_mode.
    reflexivity.
Qed.

(** ** Invariants of the members *)

Lemma dispatch_streak_matches_flag (ib : Z) (ev : Event) (m : MissionMonitor) :
  streak_matches_flag m -> streak_matches_flag (state_after (dispatch ib ev) m).
Proof.
  unfold streak_matches_flag.
  destruct ev as [t hb|t seq|t d|t seq|f|f|t]; cbn [dispatch].
  - unfold onHeatbeat, start, play. unfold_monad.
    open_monitor m. cbn. intros [Hc Hwd].
    split_branches; (split; [lia|]); try exact Hwd; split; intros; try lia;
      discriminate.
  - exact (fun H => H).
  - unfold onNavControllerOutput. unfold_monad.
    open_monitor m. cbn. intros [Hc Hwd].
    split_branches; (split; [lia|]); try exact Hwd; split; intros; try lia;
      try discriminate; reflexivity.
  - unfold onMissionCurrent. unfold_monad.
    open_monitor m. cbn. intros [Hc Hwd].
    split_branches; (split; [lia|]); exact Hwd.
  - exact (fun H => H).
  - exact (fun H => H).
  - unfold tick, evaluateMission, failMission. unfold_monad.
    open_monitor m. cbn. intros [Hc Hwd].
    split_branches; eqb_to_prop; (split; [lia|]); try exact Hwd;
      split; intros; try lia; apply Hwd; lia.
Qed.

(** X9: on a monitor run from its construction the streak is never
    negative and is positive exactly while [_wrongDirection] is set: every
    write that clears the flag zeroes the streak, every write that grows
    the streak sets the flag, and the tick that bumps 2 to 3 keeps it. *)
Theorem streak_positive_iff_wrong_direction (ib secs lowest hb0 : Z)
    (evs : list Event) :
  streak_matches_flag (state_after (run ib evs) (MissionMonitor_new secs lowest hb0)).
Proof.
  assert (Hrun : forall m, streak_matches_flag m ->
                           streak_matches_flag (state_after (run ib evs) m)).
  { induction evs as [|ev evs IH]; intros m Hm.
    - exact Hm.
    - cbn [run]. rewrite state_after_seq.
      apply IH, dispatch_streak_matches_flag, Hm. }
  apply Hrun. unfold streak_matches_flag. cbn. split; [lia|].
  split; intros; [discriminate | lia].
Qed.

(** ** The two GPS receivers *)

(** X11: the better of the two fixes decides.  With both stored fix
    types within a [uint8_t], the fix is lost exactly when both are below
    the lowest acceptable type; so after a fix report from either
    receiver that reaches the threshold the fix is not lost, whatever the
    other receiver last reported, and each report replaces only its own
    receiver's fix and calls nothing. *)
Theorem gps_best_of_two (fix_type : Z) (m : MissionMonitor) :
  0 <= _gps1FixType m < 2 ^ 8 ->
  0 <= _gps2FixType m < 2 ^ 8 ->
  0 <= fix_type < 2 ^ 8 ->
  gpsLost m
  = (_gps1FixType m <? _lowestGpsFixTpye m) && (_gps2FixType m <? _lowestGpsFixTpye m)
  /\ gpsLost (state_after (onGPSRawInt fix_type) m)
     = (fix_type <? _lowestGpsFixTpye m) && (_gps2FixType m <? _lowestGpsFixTpye m)
  /\ gpsLost (state_after (onGPS2Raw fix_type) m)
     = (_gps1FixType m <? _lowestGpsFixTpye m) && (fix_type <? _lowestGpsFixTpye m)
  /\ _gps2FixType (state_after (onGPSRawInt fix_type) m) = _gps2FixType m
  /\ _gps1FixType (state_after (onGPS2Raw fix_type) m) = _gps1FixType m
  /\ effects (onGPSRawInt fix_type) m = []
  /\ effects (onGPS2Raw fix_type) m = [].
Proof.
  intros H1 H2 Hf.
  assert (Hmax : forall a b l, 0 <= a < 2 ^ 8 -> 0 <= b < 2 ^ 8 ->
                               (u8 (Z.max a b) <? l) = (a <? l) && (b <? l)).
  { intros a b l Ha Hb. unfold u8. rewrite Z.mod_small by lia.
    destruct (Z.ltb_spec (Z.max a b) l), (Z.ltb_spec a l), (Z.ltb_spec b l);
      cbn; try reflexivity; lia. }
  unfold gpsLost, maxGPSFixType, onGPSRawInt, onGPS2Raw. unfold_monad.
  open_monitor m. cbn in H1, H2 |- *.
  repeat split; try reflexivity; apply Hmax; assumption.
Qed.

Lemma gps_best_of_two_witness :
  gpsLost (state_after (onGPS2Raw GPS_FIX_TYPE_3D_FIX) linked_monitor) = false.
Proof.
  destruct (gps_best_of_two GPS_FIX_TYPE_3D_FIX linked_monitor)
    as (_ & _ & H & _).
  - vm_compute. split; [intros H; discriminate H | reflexivity].
  - vm_compute. split; [intros H; discriminate H | reflexivity].
  - vm_compute. split; [intros H; discriminate H | reflexivity].
  - rewrite H. vm_compute. reflexivity.
Defined.

(** ** Elapsed time *)

(** The unsigned difference of two clock readings is the time between
    them, also when the clock wrapped around in between. *)
Lemma u32_elapsed (t e : Z) :
  0 <= e < 2 ^ 32 -> u32 (u32 (t + e) - t) = e.
Proof.
  intros He. unfold u32. rewrite Zminus_mod_idemp_l.
  replace (t + e - t) with e by lia. apply Z.mod_small. exact He.
Qed.

(** X12: the link-loss test measures the time since the last heartbeat,
    across a wrap-around of the 32-bit clock.  [e] milliseconds after a
    heartbeat received at clock reading [t], the link counts as lost
    exactly when [e] has reached the timeout, for any heartbeat and any
    [e] below 2^32. *)
Theorem link_lost_after_timeout (t e : Z) (hb : mavlink_heartbeat_t)
    (m : MissionMonitor) :
  0 <= e < 2 ^ 32 ->
  mavlinkLost (u32 (t + e)) (state_after (onHeatbeat t hb) m)
  = (timeoutMilliseconds m <=? e).
Proof.
  intros He.
  assert (Hst : _firstHeartbeat (state_after (onHeatbeat t hb) m) = true
                /\ _lastHeartbeatTimeMilliseconds (state_after (onHeatbeat t hb) m) = t
                /\ timeoutMilliseconds (state_after (onHeatbeat t hb) m)
                   = timeoutMilliseconds m).
  { unfold onHeatbeat, start, play, timeoutMilliseconds. unfold_monad.
    open_monitor m. split_branches; repeat split; reflexivity. }
  destruct Hst as (Hfh & Hlast & Hto).
  unfold mavlinkLost. rewrite Hfh, Hlast, Hto, (u32_elapsed t e He). reflexivity.
Qed.

Lemma link_lost_after_timeout_witness :
  mavlinkLost 999
    (state_after
       (onHeatbeat (2 ^ 32 - 4001)
          (mk_heartbeat MAV_TYPE_GROUND_ROVER ROVER_MODE_AUTO 0))
       fresh_monitor)
  = true.
Proof.
  change 999 with (u32 (2 ^ 32 - 4001 + 5000)).
  rewrite (link_lost_after_timeout (2 ^ 32 - 4001) 5000).
  - vm_compute. reflexivity.
  - vm_compute. split; [intros H; discriminate H | reflexivity].
Defined.

(** X13: the stall test measures the time since the last progress the
    same way, with one exception the code makes itself: a progress time
    of 0 switches the test off.  [e] milliseconds after a waypoint was
    reached at clock reading [t], the rover counts as stalled exactly when
    [t] is not 0 and [e] has reached the timeout; a waypoint reached at
    clock reading 0 leaves the stall test off until the next progress. *)
Theorem stalled_after_timeout (t e seq : Z) (m : MissionMonitor) :
  0 <= e < 2 ^ 32 ->
  noProgress (u32 (t + e)) (state_after (onMissionItemReached t seq) m)
  = negb (t =? 0) && (timeoutMilliseconds m <=? e)
  /\ effects (onMissionItemReached t seq) m = []
  /\ state_after (onMissionItemReached t seq) m
     = set_lastProgressMadeTimeMilliseconds t m.
Proof.
  intros He. split; [|split; reflexivity].
  unfold noProgress, timeDifference, onMissionItemReached. unfold_monad.
  cbn [fst snd]. 
  replace (_lastProgressMadeTimeMilliseconds (set_lastProgressMadeTimeMilliseconds t m))
    with t by reflexivity.
  replace (timeoutMilliseconds (set_lastProgressMadeTimeMilliseconds t m))
    with (timeoutMilliseconds m) by reflexivity.
  rewrite (u32_elapsed t e He). reflexivity.
Qed.

Lemma stalled_after_timeout_witness :
  noProgress (u32 (1 + 5000))
    (state_after (onMissionItemReached 1 0) linked_monitor) = true.
Proof.
  destruct (stalled_after_timeout 1 5000 0 linked_monitor) as (H & _).
  - vm_compute. split; [intros H; discriminate H | reflexivity].
  - rewrite H. vm_compute. reflexivity.
Defined.

(** ** Before the first heartbeat *)

Lemma dispatch_before_heartbeat (ib : Z) (ev : Event) (m : MissionMonitor) :
  _firstHeartbeat m = false -> _isFailed m = false ->
  _roverMode m = ROVER_MODE_INITIALIZING ->
  (forall t hb, ev <> Heatbeat t hb) ->
  _firstHeartbeat (state_after (dispatch ib ev) m) = false
  /\ _isFailed (state_after (dispatch ib ev) m) = false
  /\ _roverMode (state_after (dispatch ib ev) m) = ROVER_MODE_INITIALIZING
  /\ forallb (plays READY_SOUND) (effects (dispatch ib ev) m) = true.
Proof.
  intros Hfh Hf Hmode Hev.
  destruct ev as [t hb|t seq|t d|t seq|f|f|t]; cbn [dispatch].
  - exfalso. exact (Hev t hb eq_refl).
  - repeat split; assumption.
  - unfold onNavControllerOutput. unfold_monad.
    open_monitor m. cbn in Hfh, Hf, Hmode |- *. subst.
    split_branches; repeat split; reflexivity.
  - unfold onMissionCurrent. unfold_monad.
    open_monitor m. cbn in Hfh, Hf, Hmode |- *. subst.
    split_branches; repeat split; reflexivity.
  - repeat split; assumption.
  - repeat split; assumption.
  - unfold tick, evaluateMission, failMission, mavlinkLost, isAutoMode,
      isHoldMode. unfold_monad.
    open_monitor m. cbn in Hfh, Hf, Hmode |- *. subst.
    split_branches; repeat split; reflexivity.
Qed.

(** X14: until the first heartbeat arrives the monitor is inert.  Over
    any run from construction that holds no heartbeat, whatever the
    clock, the telemetry and the configured timeout, the latch stays
    clear, the mode on record stays INITIALIZING, no heartbeat is on
    record, and the only call made is the ready sound: no relay call, no
    mode request, no failsafe. *)
Theorem inert_before_first_heartbeat (ib secs lowest hb0 : Z) (evs : list Event) :
  (forall t hb, ~ In (Heatbeat t hb) evs) ->
  _isFailed (state_after (run ib evs) (MissionMonitor_new secs lowest hb0)) = false
  /\ _roverMode (state_after (run ib evs) (MissionMonitor_new secs lowest hb0))
     = ROVER_MODE_INITIALIZING
  /\ _firstHeartbeat (state_after (run ib evs) (MissionMonitor_new secs lowest hb0))
     = false
  /\ forallb (plays READY_SOUND)
       (effects (run ib evs) (MissionMonitor_new secs lowest hb0)) = true.
Proof.
  assert (Hrun : forall m,
             _firstHeartbeat m = false -> _isFailed m = false ->
             _roverMode m = ROVER_MODE_INITIALIZING ->
             (forall t hb, ~ In (Heatbeat t hb) evs) ->
             _isFailed (state_after (run ib evs) m) = false
             /\ _roverMode (state_after (run ib evs) m) = ROVER_MODE_INITIALIZING
             /\ _firstHeartbeat (state_after (run ib evs) m) = false
             /\ forallb (plays READY_SOUND) (effects (run ib evs) m) = true).
  { induction evs as [|ev evs IH]; intros m Hfh Hf Hmode Hnone.
    - repeat split; assumption.
    - destruct (dispatch_before_heartbeat ib ev m Hfh Hf Hmode)
        as (Hfh1 & Hf1 & Hmode1 & Hout1).
      { intros t hb Heq. apply (Hnone t hb). left. exact Heq. }
      destruct (IH (state_after (dispatch ib ev) m) Hfh1 Hf1 Hmode1)
        as (Hf2 & Hmode2 & Hfh2 & Hout2).
      { intros t hb Hin. apply (Hnone t hb). right. exact Hin. }
      cbn [run]. rewrite state_after_seq, effects_seq, forallb_app, Hout1, Hout2.
      repeat split; assumption. }
  intros Hnone. apply Hrun; try reflexivity. exact Hnone.
Qed.

Lemma inert_before_first_heartbeat_witness :
  effects (run 32 [GPSRawInt 0; MissionCurrent 10 3; NavControllerOutput 20 90;
                   Tick 900000; NavControllerOutput 900100 95; Tick 1800000])
    (MissionMonitor_new 0 GPS_FIX_TYPE_3D_FIX 0)
  = [audioPlayer_play READY_SOUND].
Proof.
  destruct (inert_before_first_heartbeat 32 0 GPS_FIX_TYPE_3D_FIX 0
              [GPSRawInt 0; MissionCurrent 10 3; NavControllerOutput 20 90;
               Tick 900000; NavControllerOutput 900100 95; Tick 1800000])
    as (_ & _ & _ & H).
  - intros t hb Hin. cbn in Hin.
    repeat (destruct Hin as [Hin|Hin]; [discriminate Hin|]). exact Hin.
  - vm_compute. reflexivity.
Defined.

(** ** Heartbeats that repeat the mode *)

(** X15: a heartbeat of a ground rover that reports the mode on record
    is handled like a heartbeat of any other vehicle: it records the
    heartbeat time and plays the link-acquired sound when it is due, and
    does not run [start]; the latch, the progress time, the streak and the
    relay are left alone.  A rover that comes back after a failsafe in
    the mode it had stays failed. *)
Theorem onHeatbeat_same_mode (now : Z) (hb : mavlink_heartbeat_t)
    (m : MissionMonitor) :
  custom_mode hb = _roverMode m ->
  state_after (onHeatbeat now hb) m
  = set_firstHeartbeat true (set_lastHeartbeatTimeMilliseconds now m)
  /\ effects (onHeatbeat now hb) m
     = (if _firstHeartbeat m then [] else [audioPlayer_play MAVLINK_GOOD_SOUND])
  /\ _isFailed (state_after (onHeatbeat now hb) m) = _isFailed m.
Proof.
  intros Hmode.
  assert (E : state_after (onHeatbeat now hb) m
              = set_firstHeartbeat true (set_lastHeartbeatTimeMilliseconds now m)
              /\ effects (onHeatbeat now hb) m
                 = (if _firstHeartbeat m then []
                    else [audioPlayer_play MAVLINK_GOOD_SOUND])).
  { unfold onHeatbeat. unfold_monad.
    open_monitor m. cbn in Hmode.
    split_branches; eqb_to_prop; try contradiction; split; reflexivity. }
  destruct E as [Est Eout]. rewrite Est. repeat split; try reflexivity. exact Eout.
Qed.

Lemma onHeatbeat_same_mode_witness :
  _isFailed (state_after
               (onHeatbeat 9000 (mk_heartbeat MAV_TYPE_GROUND_ROVER ROVER_MODE_AUTO 0))
               failed_monitor) = true.
Proof.
  destruct (onHeatbeat_same_mode 9000
              (mk_heartbeat MAV_TYPE_GROUND_ROVER ROVER_MODE_AUTO 0) failed_monitor)
    as (_ & _ & H).
  - vm_compute. reflexivity.
  - rewrite H. vm_compute. reflexivity.
Defined.

(** ** A new leg *)

(** X16: a current-waypoint message with a new sequence id starts a leg:
    it stores the id, makes the distance unknown and stamps the progress
    time, calling nothing.  It does not clear [_wrongDirection] or the
    streak, which carry over from the old leg; they are cleared by the
    first distance reading of the new leg, which makes progress whenever
    it is below 65535, on any platform. *)
Theorem onMissionCurrent_new_leg (ib now seq t d : Z) (m : MissionMonitor) :
  seq <> _currentWaypointSequenceId m ->
  0 <= d < 2 ^ 16 - 1 ->
  let m1 := state_after (onMissionCurrent now seq) m in
  m1 = set_lastProgressMadeTimeMilliseconds now
         (set_lastDistanceToWaypoint (u16 (-1))
            (set_currentWaypointSequenceId seq m))
  /\ effects (onMissionCurrent now seq) m = []
  /\ _wrongDirection m1 = _wrongDirection m
  /\ _wrongDirectionCount m1 = _wrongDirectionCount m
  /\ progress_made t (state_after (onNavControllerOutput ib t d) m1)
  /\ _lastDistanceToWaypoint (state_after (onNavControllerOutput ib t d) m1) = d.
Proof.
  intros Hseq Hd m1.
  assert (E : m1 = set_lastProgressMadeTimeMilliseconds now
                     (set_lastDistanceToWaypoint (u16 (-1))
                        (set_currentWaypointSequenceId seq m))
              /\ effects (onMissionCurrent now seq) m = []).
  { subst m1. unfold onMissionCurrent. unfold_monad.
    destruct (Z.eqb_spec (_currentWaypointSequenceId m) seq) as [Heq|_];
      [symmetry in Heq; contradiction|].
    split; reflexivity. }
  destruct E as [Est Eout].
  split; [exact Est|]. split; [exact Eout|].
  split; [rewrite Est; reflexivity|]. split; [rewrite Est; reflexivity|].
  assert (Hprev : _lastDistanceToWaypoint m1 = 65535) by (rewrite Est; reflexivity).
  destruct (onNavControllerOutput_cases ib t d m1)
    as (Hdist & _ & _ & _ & Hlt & _); try lia.
  split; [apply Hlt; lia | exact Hdist].
Qed.

Lemma onMissionCurrent_new_leg_witness :
  progress_made 7000
    (state_after (onNavControllerOutput 32 7000 400)
       (state_after (onMissionCurrent 6900 2)
          (state_after (run 32 wrong_way_start) fresh_monitor))).
Proof.
  destruct (onMissionCurrent_new_leg 32 6900 2 7000 400
              (state_after (run 32 wrong_way_start) fresh_monitor))
    as (_ & _ & _ & _ & H & _).
  - vm_compute. intros H. discriminate H.
  - vm_compute. split; [intros H; discriminate H | reflexivity].
  - exact H.
Defined.

(** ** Readings that move away *)

Lemma last_cons_default (l : list Z) (a b : Z) : last (a :: l) b = last l a.
Proof.
  revert a b. induction l as [|c l IH]; intros a b.
  - reflexivity.
  - change (last (a :: c :: l) b) with (last (c :: l) b).
    now rewrite (IH c b), (IH c a).
Qed.

(** X17: the streak counts the readings that moved away.  Readings that
    each lie beyond the one before raise the streak by their number and
    leave the progress time alone, so the stall timer keeps running while
    the rover moves away; the last of them is the distance on record. *)
Theorem streak_counts_readings_moving_away (ib : Z) (readings : list (Z * Z))
    (m : MissionMonitor) :
  0 <= _lastDistanceToWaypoint m ->
  moving_away (_lastDistanceToWaypoint m) readings ->
  _wrongDirectionCount (state_after (run ib (reading_events readings)) m)
  = _wrongDirectionCount m + Z.of_nat (length readings)
  /\ _lastProgressMadeTimeMilliseconds
       (state_after (run ib (reading_events readings)) m)
     = _lastProgressMadeTimeMilliseconds m
  /\ _lastDistanceToWaypoint (state_after (run ib (reading_events readings)) m)
     = last (map snd readings) (_lastDistanceToWaypoint m)
  /\ effects (run ib (reading_events readings)) m = [].
Proof.
  revert m. induction readings as [|[t d] rest IH]; intros m Hprev Haway.
  - cbn. repeat split; lia.
  - cbn [moving_away] in Haway. destruct Haway as [Hd Hrest].
    destruct (onNavControllerOutput_cases ib t d m)
      as (Hdist & Hout & _ & _ & _ & _ & _ & Hgrow); try lia.
    destruct (Hgrow (proj1 Hd)) as (Hprog & _ & Hcount).
    cbn [reading_events map run dispatch fst snd].
    rewrite state_after_seq, effects_seq, Hout.
    destruct (IH (state_after (onNavControllerOutput ib t d) m))
      as (IHc & IHp & IHd & IHo).
    { rewrite Hdist. lia. }
    { rewrite Hdist. exact Hrest. }
    fold (reading_events rest). rewrite IHc, IHp, IHd, IHo, Hcount, Hprog, Hdist.
    repeat split; try reflexivity.
    + rewrite length_cons. lia.
    + cbn [map snd]. symmetry. apply last_cons_default.
Qed.

Lemma streak_counts_readings_moving_away_witness :
  _wrongDirectionCount
    (state_after (run 32 (reading_events [(10, 60); (20, 61); (30, 700)]))
       (state_after (onNavControllerOutput 32 5 50) linked_monitor))
  = 3.
Proof.
  destruct (streak_counts_readings_moving_away 32 [(10, 60); (20, 61); (30, 700)]
              (state_after (onNavControllerOutput 32 5 50) linked_monitor))
    as (H & _).
  - vm_compute. intros H. discriminate H.
  - vm_compute. repeat split; try reflexivity; intros H; discriminate H.
  - rewrite H. vm_compute. reflexivity.
Defined.
